(** * Dell privacy notification driver: a shallow embedding

    Sources embedded here:
    - [drivers/platform/x86/dell-privacy-wmi.c]  (WMI side: event relay,
      status query, validity gate, probe/remove, sysfs attributes);
    - the ACPI platform driver [dell-privacy-acpi] (the mic-mute LED whose
      brightness callback sends the EC acknowledgment);
    - [dell-privacy-wmi.h]                       (the privacy type enum).

    The driver keeps its state in globals ([privacy_valid], [wmi_list]) and in
    [struct privacy_wmi_data] objects that are reachable both from the list
    and from the device's drvdata.  The embedding therefore threads one
    [driver] record through every operation: a store of allocated objects,
    the list of pointers into it, the drvdata table and the log of calls made
    to the input core.  A C dereference of a NULL or released pointer is a
    fault, written [None].  Addresses are allocation indices and are never
    reused; the release of devm-managed memory by the driver core after an
    unbind happens outside these files and is not part of the model. *)

From Stdlib Require Import ZArith List String Ascii Lia Bool.
From stdpp Require Import base option list gmap.

Local Open Scope Z_scope.

(** ** Machine integers *)

(** Conversion to [u32] / [unsigned int]. *)
Definition to_u32 (x : Z) : Z := x mod 2 ^ 32.

(** Conversion to [int]; the kernel is built with wrapping signed
    arithmetic, so an [int] expression is reduced to 32-bit two's complement. *)
Definition to_int (x : Z) : Z := (x + 2 ^ 31) mod 2 ^ 32 - 2 ^ 31.

(** ** errno values used by the driver *)

Definition EIO : Z := 5.
Definition ENOMEM : Z := 12.
Definition ENODEV : Z := 19.
Definition EINVAL : Z := 22.
Definition EPROBE_DEFER : Z := 517.

(** ** dell-privacy-wmi.h: the privacy type enum *)

Definition DELL_PRIVACY_TYPE_UNKNOWN : Z := 0x0.
Definition DELL_PRIVACY_TYPE_AUDIO : Z := 0x1.
Definition DELL_PRIVACY_TYPE_CAMERA : Z := 0x2.

(** ** Sparse keymap entries *)

(** The [KE_*] entry kinds of [linux/input/sparse-keymap.h]. *)
Inductive ke_kind : Set := KE_END | KE_KEY | KE_SW | KE_VSW | KE_IGNORE.

(** Input codes of [linux/input-event-codes.h] named by the keymap. *)
Definition KEY_MICMUTE : Z := 248.
Definition SW_CAMERA_LENS_COVER : Z := 0x09.

(** [struct key_entry]: kind, 32-bit scancode, and the payload union seen
    through its first member [keycode]. *)
Record key_entry : Set := KeyEntry {
  ke_type : ke_kind;
  ke_code : Z;
  ke_keycode : Z;
}.

(** Keymap for WMI privacy events of type 0x0012. *)
Definition dell_wmi_keymap_type_0012 : list key_entry :=
  [ KeyEntry KE_KEY 0x0001 KEY_MICMUTE;          (* privacy mic mute *)
    KeyEntry KE_SW  0x0002 SW_CAMERA_LENS_COVER; (* privacy camera mute *)
    KeyEntry KE_END 0 0 ].

(** One zeroed [struct key_entry], as [kcalloc] hands it out
    ([KE_END] is kind 0). *)
Definition zeroed_key_entry : key_entry := KeyEntry KE_END 0 0.

(** The probe's remap loop body:
    [keymap[pos] = dell_wmi_keymap_type_0012[i]; keymap[pos].code |= (0x0012 << 16);] *)
Definition remap_entry (e : key_entry) : key_entry :=
  KeyEntry (ke_type e) (to_u32 (Z.lor (ke_code e) (Z.shiftl 0x0012 16))) (ke_keycode e).

(** The probe's remap loop, [i] running over the whole source array and
    [pos] starting at 0. *)
Fixpoint remap_loop (src : list key_entry) (pos : nat) (keymap : list key_entry)
  : list key_entry :=
  match src with
  | [] => keymap
  | e :: rest => remap_loop rest (S pos) (<[pos := remap_entry e]> keymap)
  end.

(** [kcalloc(ARRAY_SIZE(dell_wmi_keymap_type_0012) + 1, ...)] followed by the
    remap loop. *)
Definition probe_keymap : list key_entry :=
  remap_loop dell_wmi_keymap_type_0012 0
    (replicate (length dell_wmi_keymap_type_0012 + 1) zeroed_key_entry).

(** Modelled from the spec: the number of entries [sparse_keymap_setup]
    copies into the input device, which is the prefix of the map up to and
    including its first [KE_END] entry.  The function belongs to the input
    core and is not part of the driver's files; the spec calls the result the
    Keymap Table, built once and read-only afterwards. *)
Fixpoint keymap_size (keymap : list key_entry) : nat :=
  match keymap with
  | [] => 1
  | e :: rest =>
      match ke_type e with
      | KE_END => 1
      | _ => S (keymap_size rest)
      end
  end.

(** Modelled from the spec: [sparse_keymap_entry_from_scancode] of the input
    core, the lookup of a composite scancode in the Keymap Table: the first
    entry before the [KE_END] terminator whose code equals the scancode. *)
Fixpoint sparse_keymap_entry_from_scancode (keycode : list key_entry) (code : Z)
  : option key_entry :=
  match keycode with
  | [] => None
  | key :: rest =>
      match ke_type key with
      | KE_END => None
      | _ => if code =? ke_code key then Some key
             else sparse_keymap_entry_from_scancode rest code
      end
  end.

(** ** Driver state *)

(** Life cycle of a [struct input_dev] as the driver drives it. *)
Inductive input_state : Set :=
  | InputAllocated      (* devm_input_allocate_device *)
  | InputRegistered     (* input_register_device succeeded *)
  | InputUnregistered   (* input_unregister_device *)
  | InputFreed.         (* input_free_device *)

(** The part of [struct input_dev] the driver depends on. *)
Record input_dev_t : Set := InputDev {
  keycode : list key_entry;   (* dev->keycode, installed by sparse_keymap_setup *)
  dev_state : input_state;
}.

(** [struct privacy_wmi_data]; the [list] member is represented by the
    object's position in [wmi_list]. *)
Record privacy_wmi_data : Set := PrivData {
  input_dev : option input_dev_t;
  wdev : option nat;
  features_present : Z;
  last_status : Z;
}.

(** A call made to the input core:
    [sparse_keymap_report_entry(priv->input_dev, key, value, autorelease)],
    the device named by the object that owns it. *)
Inductive input_action : Set :=
  | ReportEntry (priv : nat) (key : key_entry) (value : Z) (autorelease : bool).

(** The globals of dell-privacy-wmi.c together with the objects they point
    into. *)
Record driver : Type := Driver {
  privacy_valid : Z;                  (* static int privacy_valid *)
  wmi_list : list nat;                (* static LIST_HEAD(wmi_list) *)
  objs : list privacy_wmi_data;       (* devm_kzalloc'ed objects, by address *)
  drvdata : gmap nat nat;             (* dev_set_drvdata / dev_get_drvdata *)
  input_log : list input_action;      (* reports sent to the input core *)
}.

(** State at module load:
    [static int privacy_valid = -EPROBE_DEFER; static LIST_HEAD(wmi_list);] *)
Definition driver_init : driver :=
  Driver (- EPROBE_DEFER) [] [] ∅ [].

(** ** A state-and-fault monad for the driver's C functions *)

Definition M (A : Type) : Type := driver → option (A * driver).

Global Instance M_ret : MRet M := λ A (a : A) (s : driver), Some (a, s).
Global Instance M_bind : MBind M := λ A B (f : A → M B) (m : M A) (s : driver),
  match m s with
  | Some (a, s') => f a s'
  | None => None
  end.

(** A NULL or dangling dereference. *)
Definition fault {A : Type} : M A := λ _, None.

Definition get_driver : M driver := λ s, Some (s, s).

(** Field updates of the [driver] record. *)
Definition with_valid (v : Z) (s : driver) : driver :=
  Driver v (wmi_list s) (objs s) (drvdata s) (input_log s).

Definition with_list (l : list nat) (s : driver) : driver :=
  Driver (privacy_valid s) l (objs s) (drvdata s) (input_log s).

Definition with_objs (o : list privacy_wmi_data) (s : driver) : driver :=
  Driver (privacy_valid s) (wmi_list s) o (drvdata s) (input_log s).

Definition with_drvdata (m : gmap nat nat) (s : driver) : driver :=
  Driver (privacy_valid s) (wmi_list s) (objs s) m (input_log s).

Definition with_log (l : list input_action) (s : driver) : driver :=
  Driver (privacy_valid s) (wmi_list s) (objs s) (drvdata s) l.

Definition set_privacy_valid (v : Z) : M unit := λ s, Some (tt, with_valid v s).

Definition set_wmi_list (l : list nat) : M unit := λ s, Some (tt, with_list l s).

(** [*priv] read. *)
Definition load (priv : nat) : M privacy_wmi_data := λ s,
  match objs s !! priv with
  | Some d => Some (d, s)
  | None => None
  end.

(** [*priv = d] write. *)
Definition store (priv : nat) (d : privacy_wmi_data) : M unit := λ s,
  match objs s !! priv with
  | Some _ => Some (tt, with_objs (<[priv := d]> (objs s)) s)
  | None => None
  end.

(** [devm_kzalloc] of one [struct privacy_wmi_data]: a zeroed object at
    a fresh address, or NULL when the allocator fails. *)
Definition devm_kzalloc (ok : bool) : M (option nat) := λ s,
  if ok then
    Some (Some (length (objs s)), with_objs (objs s ++ [PrivData None None 0 0]) s)
  else Some (None, s).

Definition dev_set_drvdata (dev : nat) (priv : nat) : M unit := λ s,
  Some (tt, with_drvdata (<[dev := priv]> (drvdata s)) s).

Definition dev_get_drvdata (dev : nat) : M (option nat) := λ s,
  Some (drvdata s !! dev, s).

(** [priv->input_dev], which must point to a device not yet freed. *)
Definition load_input_dev (priv : nat) : M input_dev_t :=
  d ← load priv;
  match input_dev d with
  | Some idev =>
      match dev_state idev with
      | InputFreed => fault
      | _ => mret idev
      end
  | None => fault
  end.

(** Modelled from the spec: [sparse_keymap_report_entry] of the input core,
    which turns one keymap entry into the input events of its kind; the
    embedding records the call itself as the emitted input action. *)
Definition sparse_keymap_report_entry
    (priv : nat) (key : key_entry) (value : Z) (autorelease : bool) : M unit := λ s,
  Some (tt, with_log (input_log s ++ [ReportEntry priv key value autorelease]) s).

(** ** dell_privacy_valid *)

(** [wmi_has_guid(DELL_PRIVACY_GUID)] is a property of the platform's WMI bus
    and is passed in. *)
Definition dell_privacy_valid (wmi_has_guid : bool) : M Z :=
  if negb wmi_has_guid then mret (- ENODEV)
  else
    s ← get_driver;
    mret (privacy_valid s).

(** ** dell_privacy_process_event *)

(** [list_first_entry_or_null(&wmi_list, struct privacy_wmi_data, list)] *)
Definition list_first_entry_or_null (l : list nat) : option nat := head l.

(** The scancode argument [(type << 16)|code], an [int] expression passed
    as [unsigned int]. *)
Definition scancode (type code : Z) : Z :=
  to_u32 (Z.lor (to_int (Z.shiftl type 16)) code).

Definition set_last_status (d : privacy_wmi_data) (v : Z) : privacy_wmi_data :=
  PrivData (input_dev d) (wdev d) (features_present d) v.

Definition dell_privacy_process_event (type code status : Z) : M unit :=
  s ← get_driver;
  match list_first_entry_or_null (wmi_list s) with
  | None => mret tt                      (* pr_err; goto error *)
  | Some priv =>
      idev ← load_input_dev priv;
      match sparse_keymap_entry_from_scancode (keycode idev) (scancode type code) with
      | None => mret tt                  (* dev_dbg; goto error *)
      | Some key =>
          if code =? DELL_PRIVACY_TYPE_AUDIO then        (* Mic mute *)
            d ← load priv;
            store priv (set_last_status d (to_u32 status));;
            sparse_keymap_report_entry priv key 1 true
          else if code =? DELL_PRIVACY_TYPE_CAMERA then  (* Camera mute *)
            d ← load priv;
            store priv (set_last_status d (to_u32 status));;
            sparse_keymap_report_entry priv key 1 true
          else mret tt                   (* default: dev_dbg *)
      end
  end.

(** ** get_current_status *)

(** [union acpi_object], by its [type] tag; only the buffer payload is read. *)
Inductive acpi_object : Set :=
  | ACPI_TYPE_INTEGER (value : Z)
  | ACPI_TYPE_STRING (chars : list Byte.byte)
  | ACPI_TYPE_BUFFER (pointer : list Byte.byte)
  | ACPI_TYPE_PACKAGE (count : nat).

Definition byte_val (b : Byte.byte) : Z := Z.of_N (Byte.to_N b).

(** [((u32 * )pointer)[i]]: the 32-bit word at byte offset [4 * i], in the
    little-endian byte order of the x86 platforms this driver is built for. *)
Definition buffer_u32 (pointer : list Byte.byte) (i : nat) : Z :=
  match drop (4 * i) pointer with
  | b0 :: b1 :: b2 :: b3 :: _ =>
      byte_val b0 + 2 ^ 8 * byte_val b1 + 2 ^ 16 * byte_val b2 + 2 ^ 24 * byte_val b3
  | _ => 0
  end.

Definition set_status_fields (d : privacy_wmi_data) (features status : Z)
  : privacy_wmi_data :=
  PrivData (input_dev d) (wdev d) features status.

(** [obj_present] is what [wmidev_block_query(wdev, 0)] returns on this call
    (NULL is [None]). *)
Definition get_current_status (obj_present : option acpi_object) (wdev : nat) : M Z :=
  priv ← dev_get_drvdata wdev;
  match priv with
  | None => mret (- EINVAL)              (* pr_err("dell privacy priv is NULL") *)
  | Some priv =>
      (* check privacy support features and device states *)
      match obj_present with
      | None =>
          set_privacy_valid (- EIO);;
          mret (- EIO)
      | Some (ACPI_TYPE_BUFFER pointer) =>
          if bool_decide (length pointer ≠ 8%nat) then
            set_privacy_valid (- EINVAL);;
            mret (- EINVAL)
          else
            d ← load priv;
            store priv (set_status_fields d (buffer_u32 pointer 0) (buffer_u32 pointer 1));;
            set_privacy_valid 0;;
            mret 0
      | Some _ =>
          set_privacy_valid (- EIO);;
          mret (- EIO)
      end
  end.

(** ** dell_privacy_wmi_probe and dell_privacy_wmi_remove *)

(** What the kernel services called by one probe answer. *)
Record probe_env : Set := ProbeEnv {
  kzalloc_ok : bool;                      (* devm_kzalloc returned non-NULL *)
  input_allocate_ok : bool;               (* devm_input_allocate_device non-NULL *)
  kcalloc_ok : bool;                      (* kcalloc of the keymap non-NULL *)
  keymap_dup_ok : bool;                   (* the copy in sparse_keymap_setup *)
  input_register_ret : Z;                 (* input_register_device *)
  block_query : option acpi_object;       (* wmidev_block_query(wdev, 0) *)
  add_group_ret : Z;                      (* devm_device_add_group *)
}.

Definition set_wdev (d : privacy_wmi_data) (w : nat) : privacy_wmi_data :=
  PrivData (input_dev d) (Some w) (features_present d) (last_status d).

Definition set_input_dev (d : privacy_wmi_data) (i : option input_dev_t)
  : privacy_wmi_data :=
  PrivData i (wdev d) (features_present d) (last_status d).

(** Update of [*priv->input_dev]; the device must not have been freed. *)
Definition update_input_dev (priv : nat) (f : input_dev_t → input_dev_t) : M unit :=
  d ← load priv;
  match input_dev d with
  | Some idev =>
      match dev_state idev with
      | InputFreed => fault
      | _ => store priv (set_input_dev d (Some (f idev)))
      end
  | None => fault
  end.

Definition set_dev_state (st : input_state) (idev : input_dev_t) : input_dev_t :=
  InputDev (keycode idev) st.

Definition set_keycode (map : list key_entry) (idev : input_dev_t) : input_dev_t :=
  InputDev map (dev_state idev).

(** Modelled from the spec: [sparse_keymap_setup(dev, keymap, NULL)] of the
    input core: it copies the map up to its first [KE_END] entry into the
    device, or returns [-ENOMEM] when the copy cannot be allocated. *)
Definition sparse_keymap_setup (dup_ok : bool) (priv : nat) (keymap : list key_entry)
  : M Z :=
  if dup_ok then
    update_input_dev priv (set_keycode (take (keymap_size keymap) keymap));;
    mret 0
  else mret (- ENOMEM).

Definition input_unregister_device (priv : nat) : M unit :=
  update_input_dev priv (set_dev_state InputUnregistered).

Definition input_free_device (priv : nat) : M unit :=
  update_input_dev priv (set_dev_state InputFreed).

(** [list_add_tail(&priv->list, &wmi_list)] under [list_mutex]. *)
Definition list_add_tail (priv : nat) : M unit :=
  s ← get_driver;
  set_wmi_list (wmi_list s ++ [priv]).

(** [list_del(&priv->list)] under [list_mutex]; unlinking an entry that was
    never linked dereferences its zeroed [next]/[prev]. *)
Definition list_del (priv : nat) : M unit :=
  s ← get_driver;
  if bool_decide (priv ∈ wmi_list s) then
    set_wmi_list (filter (λ q, q ≠ priv) (wmi_list s))
  else fault.

(** The labels [err_free_dev], [err_free_keymap] and [err_free_input] of
    the probe, each falling through to the next. *)
Definition err_free_dev (priv : nat) (ret : Z) : M Z :=
  input_free_device priv;;
  mret ret.

Definition err_free_keymap (priv : nat) (ret : Z) : M Z :=
  set_privacy_valid (- ENODEV);;
  (* kfree(keymap) *)
  err_free_dev priv ret.

Definition err_free_input (priv : nat) (ret : Z) : M Z :=
  input_unregister_device priv;;
  err_free_keymap priv ret.

Definition dell_privacy_wmi_probe (env : probe_env) (wdev : nat) : M Z :=
  priv ← devm_kzalloc (kzalloc_ok env);
  match priv with
  | None => mret (- ENOMEM)
  | Some priv =>
      dev_set_drvdata wdev priv;;
      d ← load priv;
      store priv (set_wdev d wdev);;
      (* create evdev passing interface *)
      d ← load priv;
      store priv (set_input_dev d
                    (if input_allocate_ok env
                     then Some (InputDev [] InputAllocated) else None));;
      if negb (input_allocate_ok env) then mret (- ENOMEM)
      else
        (* remap the wmi keymap event to new keymap *)
        if negb (kcalloc_ok env) then
          err_free_dev priv (- ENOMEM)
        else
          let keymap := probe_keymap in
          ret ← sparse_keymap_setup (keymap_dup_ok env) priv keymap;
          if negb (ret =? 0) then mret ret
          else
            (* dev.parent, name and id.bustype of the input device are set here *)
            if negb (input_register_ret env =? 0) then
              err_free_keymap priv ret
            else
              update_input_dev priv (set_dev_state InputRegistered);;
              list_add_tail priv;;
              r ← get_current_status (block_query env) wdev;
              if negb (r =? 0) then err_free_input priv ret
              else
                let ret := add_group_ret env in
                if negb (ret =? 0) then err_free_input priv ret
                else
                  (* kfree(keymap) *)
                  mret 0
  end.

Definition dell_privacy_wmi_remove (wdev : nat) : M Z :=
  priv ← dev_get_drvdata wdev;
  match priv with
  | None => fault
  | Some priv =>
      list_del priv;;
      set_privacy_valid (- ENODEV);;
      input_unregister_device priv;;
      mret 0
  end.

(** ** The read-only status attributes *)

Definition hex_digit (d : Z) : ascii :=
  match d with
  | 0 => "0" | 1 => "1" | 2 => "2" | 3 => "3"
  | 4 => "4" | 5 => "5" | 6 => "6" | 7 => "7"
  | 8 => "8" | 9 => "9" | 10 => "a" | 11 => "b"
  | 12 => "c" | 13 => "d" | 14 => "e" | _ => "f"
  end%char.

(** Digits of [v], most significant first, in front of [acc]; [fuel] bounds
    the number of digits (8 for a 32-bit value). *)
Fixpoint fmt_x_digits (fuel : nat) (v : Z) (acc : string) : string :=
  match fuel with
  | O => acc
  | S fuel' =>
      let acc' := String (hex_digit (v mod 16)) acc in
      if v / 16 =? 0 then acc' else fmt_x_digits fuel' (v / 16) acc'
  end.

(** Modelled from the spec: the ["%x"] conversion of an [unsigned int] done
    inside [sysfs_emit] (kernel library code outside the driver's files):
    lower-case hexadecimal text without prefix or padding, ["3"] for 0x3. *)
Definition fmt_x (v : Z) : string := fmt_x_digits 8 v EmptyString.

(** [sysfs_emit(buf, "%x\n", v)]: the text placed in [buf]. *)
Definition sysfs_emit_x (v : Z) : string :=
  (fmt_x v ++ String "010" EmptyString)%string.

Definition devices_supported_show (dev : nat) : M string :=
  priv ← dev_get_drvdata dev;
  match priv with
  | None => fault
  | Some priv =>
      d ← load priv;
      mret (sysfs_emit_x (features_present d))
  end.

Definition current_state_show (dev : nat) : M string :=
  priv ← dev_get_drvdata dev;
  match priv with
  | None => fault
  | Some priv =>
      d ← load priv;
      mret (sysfs_emit_x (last_status d))
  end.

(** Reading hexadecimal text back, used to state what the attributes show. *)
Definition hex_digit_value (c : ascii) : option Z :=
  let n := Z.of_N (N_of_ascii c) in
  if (48 <=? n) && (n <=? 57) then Some (n - 48)
  else if (97 <=? n) && (n <=? 102) then Some (n - 87)
  else None.

Fixpoint parse_hex_from (acc : Z) (s : string) : option Z :=
  match s with
  | EmptyString => Some acc
  | String c rest =>
      match hex_digit_value c with
      | Some d => parse_hex_from (16 * acc + d) rest
      | None => None
      end
  end.

Definition parse_hex (s : string) : option Z :=
  match s with
  | EmptyString => None
  | _ => parse_hex_from 0 s
  end.

(** ** The mic-mute LED of the ACPI side *)

(** What the ACPI core answers during one brightness callback. *)
Record ec_env : Set := EcEnv {
  ec_get_handle : option nat;        (* NULL when there is no EC *)
  acpi_has_method : bool;            (* acpi_has_method(handle, "ECAK") *)
  evaluate_status : Z;               (* acpi_status of acpi_evaluate_object *)
}.

(** A control method evaluated on the firmware:
    [acpi_evaluate_object(handle, method, NULL, NULL)]. *)
Inductive acpi_call : Set :=
  | EvaluateObject (handle : nat) (method : string).

Definition acpi_method : string := "ECAK".

(** [ACPI_FAILURE(status)]: any status other than [AE_OK] (0). *)
Definition ACPI_FAILURE (status : Z) : bool := negb (status =? 0).

(** Returns the callback's return value and the control methods it
    evaluated. *)
Definition dell_privacy_micmute_led_set (ec : ec_env) (brightness : Z)
  : Z * list acpi_call :=
  match ec_get_handle ec with
  | None => (- EIO, [])
  | Some handle =>
      if negb (acpi_has_method ec) then (- EIO, [])
      else
        let status := evaluate_status ec in
        let calls := [EvaluateObject handle acpi_method] in
        if ACPI_FAILURE status then (- EIO, calls)   (* dev_err *)
        else (0, calls)                               (* pr_debug *)
  end.

(** ** Running the driver *)

(** The entry points the rest of the kernel calls into. *)
Inductive op : Type :=
  | OpProbe (env : probe_env) (wdev : nat)
  | OpRemove (wdev : nat)
  | OpEvent (type code status : Z)
  | OpValid (wmi_has_guid : bool)
  | OpShowSupported (dev : nat)
  | OpShowState (dev : nat).

(** State after one entry point has run to completion. *)
Definition run_op (o : op) (s : driver) : option driver :=
  match o with
  | OpProbe env wdev => snd <$> dell_privacy_wmi_probe env wdev s
  | OpRemove wdev => snd <$> dell_privacy_wmi_remove wdev s
  | OpEvent type code status => snd <$> dell_privacy_process_event type code status s
  | OpValid g => snd <$> dell_privacy_valid g s
  | OpShowSupported dev => snd <$> devices_supported_show dev s
  | OpShowState dev => snd <$> current_state_show dev s
  end.

(** States the driver can be in after any sequence of entry points, starting
    from module load. *)
Inductive reachable : driver → Prop :=
  | reachable_init : reachable driver_init
  | reachable_step (o : op) (s s' : driver) :
      reachable s → run_op o s = Some s' → reachable s'.

(** ** Module load and unload, and the ACPI platform driver *)

(** A kernel pointer to one allocated object: NULL, pointing to the live
    object, or left dangling by [kfree]. *)
Inductive kptr (A : Type) : Type :=
  | NullPtr
  | LivePtr (a : A)
  | FreedPtr.
Arguments NullPtr {A}.
Arguments LivePtr {A} a.
Arguments FreedPtr {A}.

(** The members of [struct led_classdev] set by the driver;
    [cdev_brightness_set_blocking] tells whether the callback
    [dell_privacy_micmute_led_set] is installed. *)
Record led_classdev : Set := LedClassdev {
  cdev_name : string;
  cdev_max_brightness : Z;
  cdev_brightness_set_blocking : bool;
  cdev_default_trigger : string;
  cdev_brightness : Z;
}.

(** [struct privacy_acpi_priv] *)
Record privacy_acpi_priv : Set := PrivacyAcpiPriv {
  acpi_dev : option nat;
  acpi_platform_device : option nat;
  acpi_cdev : led_classdev;
}.

(** One [kzalloc]'ed [struct privacy_acpi_priv]. *)
Definition zeroed_privacy_acpi : privacy_acpi_priv :=
  PrivacyAcpiPriv None None (LedClassdev EmptyString 0 false EmptyString 0).

(** What the module has allocated and registered with the kernel: the WMI
    driver, the global [privacy_acpi], the platform driver, the platform
    device, the devices whose drvdata is [privacy_acpi], and the LED class
    device.  The probe and remove callbacks that the driver core runs when a
    driver or device is registered or unregistered are entry points of their
    own and are not run by these registrations. *)
Record module_state : Type := ModuleState {
  wmi_driver_registered : bool;
  privacy_acpi : kptr privacy_acpi_priv;
  platform_drv_registered : bool;
  platform_device_registered : option nat;
  platform_drvdata : list nat;
  led_registered : bool;
}.

(** Nothing allocated, nothing registered. *)
Definition module_load : module_state :=
  ModuleState false NullPtr false None [] false.

Definition MS (A : Type) : Type := module_state → option (A * module_state).

Global Instance MS_ret : MRet MS := λ A (a : A) (s : module_state), Some (a, s).
Global Instance MS_bind : MBind MS :=
  λ A B (f : A → MS B) (m : MS A) (s : module_state),
  match m s with
  | Some (a, s') => f a s'
  | None => None
  end.

Definition ms_fault {A : Type} : MS A := λ _, None.

Definition get_module : MS module_state := λ s, Some (s, s).

Definition set_wmi_driver_registered (b : bool) : MS unit := λ s,
  Some (tt, ModuleState b (privacy_acpi s) (platform_drv_registered s)
                        (platform_device_registered s) (platform_drvdata s)
                        (led_registered s)).

Definition set_privacy_acpi (p : kptr privacy_acpi_priv) : MS unit := λ s,
  Some (tt, ModuleState (wmi_driver_registered s) p (platform_drv_registered s)
                        (platform_device_registered s) (platform_drvdata s)
                        (led_registered s)).

Definition set_platform_drv_registered (b : bool) : MS unit := λ s,
  Some (tt, ModuleState (wmi_driver_registered s) (privacy_acpi s) b
                        (platform_device_registered s) (platform_drvdata s)
                        (led_registered s)).

Definition set_platform_device_registered (d : option nat) : MS unit := λ s,
  Some (tt, ModuleState (wmi_driver_registered s) (privacy_acpi s)
                        (platform_drv_registered s) d (platform_drvdata s)
                        (led_registered s)).

Definition set_led_registered (b : bool) : MS unit := λ s,
  Some (tt, ModuleState (wmi_driver_registered s) (privacy_acpi s)
                        (platform_drv_registered s) (platform_device_registered s)
                        (platform_drvdata s) b).

(** [platform_set_drvdata(pdev, privacy_acpi)] *)
Definition platform_set_drvdata (pdev : nat) : MS unit := λ s,
  Some (tt, ModuleState (wmi_driver_registered s) (privacy_acpi s)
                        (platform_drv_registered s) (platform_device_registered s)
                        (pdev :: platform_drvdata s) (led_registered s)).

(** Read through [privacy_acpi]. *)
Definition load_acpi : MS privacy_acpi_priv := λ s,
  match privacy_acpi s with
  | LivePtr a => Some (a, s)
  | _ => None
  end.

(** Write through [privacy_acpi]. *)
Definition store_acpi (a : privacy_acpi_priv) : MS unit :=
  _ ← load_acpi;
  set_privacy_acpi (LivePtr a).

(** [kfree(privacy_acpi)]; the global keeps its value and now dangles. *)
Definition kfree_privacy_acpi : MS unit := λ s,
  match privacy_acpi s with
  | NullPtr => Some (tt, s)
  | _ => set_privacy_acpi FreedPtr s
  end.

(** What the LED core answers during one [dell_privacy_leds_setup]. *)
Record led_env : Set := LedEnv {
  ledtrig_audio_get : Z;             (* ledtrig_audio_get(LED_AUDIO_MICMUTE) *)
  led_classdev_register_ret : Z;     (* devm_led_classdev_register *)
}.

Definition dell_privacy_leds_setup (env : led_env) (dev : nat) : MS Z :=
  s ← get_module;
  (* priv = dev_get_drvdata(dev) *)
  if bool_decide (dev ∈ platform_drvdata s) then
    priv ← load_acpi;
    store_acpi (PrivacyAcpiPriv (acpi_dev priv) (acpi_platform_device priv)
                  (LedClassdev "dell-privacy::micmute" 1 true "audio-micmute"
                               (ledtrig_audio_get env)));;
    let ret := led_classdev_register_ret env in
    if negb (ret =? 0) then mret ret
    else
      set_led_registered true;;
      mret 0
  else ms_fault.

Definition dell_privacy_acpi_probe (env : led_env) (pdev : nat) : MS Z :=
  platform_set_drvdata pdev;;
  a ← load_acpi;
  store_acpi (PrivacyAcpiPriv (Some pdev) (acpi_platform_device a) (acpi_cdev a));;
  a ← load_acpi;
  store_acpi (PrivacyAcpiPriv (acpi_dev a) (Some pdev) (acpi_cdev a));;
  ret ← dell_privacy_leds_setup env pdev;
  if negb (ret =? 0) then mret (- EIO)
  else mret 0.

(** What [platform_device_register_simple] returns: the device, or an
    [ERR_PTR] carrying an errno. *)
Inductive pdev_result : Set :=
  | PdevOk (pdev : nat)
  | PdevErr (err : Z).

(** What the kernel answers during module load. *)
Record init_env : Set := InitEnv {
  init_has_guid : bool;                    (* wmi_has_guid(DELL_PRIVACY_GUID) *)
  wmi_driver_register_ret : Z;             (* wmi_driver_register *)
  init_kzalloc_ok : bool;                  (* kzalloc of privacy_acpi *)
  platform_driver_register_ret : Z;        (* platform_driver_register *)
  platform_device_register_simple : pdev_result;
}.

Definition dell_privacy_acpi_init (env : init_env) : MS Z :=
  if negb (init_has_guid env) then mret (- ENODEV)
  else
    set_privacy_acpi (if init_kzalloc_ok env
                      then LivePtr zeroed_privacy_acpi else NullPtr);;
    if negb (init_kzalloc_ok env) then mret (- ENOMEM)
    else
      let err := platform_driver_register_ret env in
      if negb (err =? 0) then
        (* pdrv_err *)
        kfree_privacy_acpi;;
        mret err
      else
        set_platform_drv_registered true;;
        match platform_device_register_simple env with
        | PdevErr err =>
            (* pdev_err: platform_device_unregister of the error pointer
               does nothing *)
            kfree_privacy_acpi;;
            mret err
        | PdevOk pdev =>
            set_platform_device_registered (Some pdev);;
            mret 0
        end.

(** [platform_device_unregister(pdev)]: the module's platform device is
    unregistered when [pdev] is that device; the registration recorded for
    another device is not affected. *)
Definition platform_device_unregister (pdev : nat) : MS unit :=
  s ← get_module;
  if bool_decide (platform_device_registered s = Some pdev) then
    set_platform_device_registered None
  else mret tt.

(** With [privacy_acpi->dev] still NULL (no probe has run),
    [to_platform_device] yields the small negative address
    [-offsetof(struct platform_device, dev)], an error pointer, on which
    [platform_device_unregister] does nothing: the platform device stays
    registered. *)
Definition dell_privacy_acpi_exit : MS unit :=
  a ← load_acpi;
  (* pdev = to_platform_device(privacy_acpi->dev) *)
  match acpi_dev a with
  | None => mret tt
  | Some pdev => platform_device_unregister pdev
  end;;
  set_platform_drv_registered false;;
  kfree_privacy_acpi.

Definition init_dell_privacy (env : init_env) : MS Z :=
  if negb (init_has_guid env) then mret (- ENODEV)
  else
    let ret := wmi_driver_register_ret env in
    if negb (ret =? 0) then mret ret      (* pr_err *)
    else
      set_wmi_driver_registered true;;
      ret ← dell_privacy_acpi_init env;
      if negb (ret =? 0) then
        (* err_init *)
        set_wmi_driver_registered false;;
        mret ret
      else mret 0.

Definition dell_privacy_wmi_exit : MS unit :=
  set_wmi_driver_registered false.

Definition exit_dell_privacy : MS unit :=
  dell_privacy_wmi_exit;;
  dell_privacy_acpi_exit.

(** * Vocabulary of the statements *)

(** The map held by the input device after [sparse_keymap_setup]. *)
Definition installed_keymap : list key_entry :=
  take (keymap_size probe_keymap) probe_keymap.

(** The (type, code) pairs of the Keymap Table: the entries of
    [dell_wmi_keymap_type_0012] in front of its terminator, under event type
    0x0012. *)
Fixpoint keymap_pairs_of (table : list key_entry) : list (Z * Z) :=
  match table with
  | [] => []
  | e :: rest =>
      match ke_type e with
      | KE_END => []
      | _ => (0x0012, ke_code e) :: keymap_pairs_of rest
      end
  end.

Definition keymap_pairs : list (Z * Z) := keymap_pairs_of dell_wmi_keymap_type_0012.

(** The first registered instance when it can be used: the head of
    [wmi_list], the object it points to and that object's input device,
    which must not have been freed. *)
Definition first_instance (s : driver) : option (nat * privacy_wmi_data * input_dev_t) :=
  priv ← list_first_entry_or_null (wmi_list s);
  d ← objs s !! priv;
  idev ← input_dev d;
  match dev_state idev with
  | InputFreed => None
  | _ => Some (priv, d, idev)
  end.

(** What [get_current_status] returns for a query result when the drvdata is
    set. *)
Definition query_ret (obj_present : option acpi_object) : Z :=
  match obj_present with
  | None => - EIO
  | Some (ACPI_TYPE_BUFFER pointer) =>
      if bool_decide (length pointer ≠ 8%nat) then - EINVAL else 0
  | Some _ => - EIO
  end.

(** Return value and final state of one probe, read off the control flow of
    [dell_privacy_wmi_probe]: the object allocated by this probe sits at
    address [length (objs s)]. *)
Definition probe_outcome (env : probe_env) (wdev : nat) (s : driver) : Z * driver :=
  let p := length (objs s) in
  let finish (ret valid : Z) (l : list nat) (d : privacy_wmi_data) :=
    (ret, Driver valid l (objs s ++ [d]) (<[wdev := p]> (drvdata s)) (input_log s)) in
  let obj (st : input_state) (km : list key_entry) (f c : Z) :=
    PrivData (Some (InputDev km st)) (Some wdev) f c in
  if negb (kzalloc_ok env) then (- ENOMEM, s)
  else if negb (input_allocate_ok env) then
    finish (- ENOMEM) (privacy_valid s) (wmi_list s) (PrivData None (Some wdev) 0 0)
  else if negb (kcalloc_ok env) then
    finish (- ENOMEM) (privacy_valid s) (wmi_list s) (obj InputFreed [] 0 0)
  else if negb (keymap_dup_ok env) then
    finish (- ENOMEM) (privacy_valid s) (wmi_list s) (obj InputAllocated [] 0 0)
  else if negb (input_register_ret env =? 0) then
    finish 0 (- ENODEV) (wmi_list s) (obj InputFreed installed_keymap 0 0)
  else
    match block_query env with
    | Some (ACPI_TYPE_BUFFER pointer) =>
        if bool_decide (length pointer ≠ 8%nat) then
          finish 0 (- ENODEV) (wmi_list s ++ [p]) (obj InputFreed installed_keymap 0 0)
        else if negb (add_group_ret env =? 0) then
          finish (add_group_ret env) (- ENODEV) (wmi_list s ++ [p])
            (obj InputFreed installed_keymap (buffer_u32 pointer 0) (buffer_u32 pointer 1))
        else
          finish 0 0 (wmi_list s ++ [p])
            (obj InputRegistered installed_keymap
               (buffer_u32 pointer 0) (buffer_u32 pointer 1))
    | _ =>
        finish 0 (- ENODEV) (wmi_list s ++ [p]) (obj InputFreed installed_keymap 0 0)
    end.

(** The state left by a successful [dell_privacy_wmi_remove] of an instance
    at [priv] whose input device is [idev]. *)
Definition remove_outcome (s : driver) (priv : nat) (d : privacy_wmi_data)
    (idev : input_dev_t) : driver :=
  Driver (- ENODEV)
         (filter (λ q, q ≠ priv) (wmi_list s))
         (<[priv := set_input_dev d (Some (set_dev_state InputUnregistered idev))]> (objs s))
         (drvdata s) (input_log s).

(** The state left by one relayed event when the first instance is usable. *)
Definition relay_outcome (type code status : Z) (s : driver)
    (priv : nat) (d : privacy_wmi_data) (idev : input_dev_t) : driver :=
  match sparse_keymap_entry_from_scancode (keycode idev) (scancode type code) with
  | Some key =>
      if (code =? DELL_PRIVACY_TYPE_AUDIO) || (code =? DELL_PRIVACY_TYPE_CAMERA) then
        with_log (input_log s ++ [ReportEntry priv key 1 true])
                 (with_objs (<[priv := set_last_status d (to_u32 status)]> (objs s)) s)
      else s
  | None => s
  end.

Record driver_inv (s : driver) : Prop := DriverInv {
  (** an empty registration list goes with a negative [privacy_valid] *)
  inv_valid : wmi_list s = [] → privacy_valid s < 0;
  (** every list entry points to an allocated object *)
  inv_bound : ∀ p, p ∈ wmi_list s → (p < length (objs s))%nat;
  (** the input device of a listed object carries the probe's keymap *)
  inv_keymap : ∀ p d idev,
    p ∈ wmi_list s → objs s !! p = Some d → input_dev d = Some idev →
    keycode idev = installed_keymap;
}.

Definition example_response : list Byte.byte :=
  [Byte.x03; Byte.x00; Byte.x00; Byte.x00; Byte.x01; Byte.x00; Byte.x00; Byte.x00].

(** A probe in which every kernel service succeeds and the firmware answers
    (features = 0x3, status = 0x1). *)
Definition example_env : probe_env :=
  ProbeEnv true true true true 0 (Some (ACPI_TYPE_BUFFER example_response)) 0.

(** The state after that probe of device 7 on a freshly loaded driver. *)
Definition example_probed : driver := (probe_outcome example_env 7 driver_init).2.

(** The state after the probe of device 7 followed by its removal. *)
Definition example_removed : driver :=
  remove_outcome example_probed 0
    (PrivData (Some (InputDev installed_keymap InputRegistered)) (Some 7%nat) 3 1)
    (InputDev installed_keymap InputRegistered).

(** [n] validity queries in a row, with the values they return. *)
Fixpoint repeat_valid (wmi_has_guid : bool) (n : nat) : M (list Z) :=
  match n with
  | O => mret []
  | S n' =>
      r ← dell_privacy_valid wmi_has_guid;
      rs ← repeat_valid wmi_has_guid n';
      mret (r :: rs)
  end.

Definition is_buffer (obj : acpi_object) : bool :=
  match obj with
  | ACPI_TYPE_BUFFER _ => true
  | _ => false
  end.

Definition byte_of (x : Z) : Byte.byte :=
  match Byte.of_N (Z.to_N (x mod 256)) with
  | Some b => b
  | None => Byte.x00
  end.

(** The four bytes of a 32-bit word, least significant first. *)
Definition le32 (v : Z) : list Byte.byte :=
  [byte_of v; byte_of (v / 2 ^ 8); byte_of (v / 2 ^ 16); byte_of (v / 2 ^ 24)].

(** The well-formed probe response for a pair (features, status), in the
    spec's words: 8 bytes, the first four the supported-feature bitmap, the
    next four the current-state bitmap. *)
Definition encode_response (features status : Z) : list Byte.byte :=
  le32 features ++ le32 status.

(** The probe gets as far as registering the input device: the four
    allocations in front of it succeeded. *)
Definition probe_reaches_registration (env : probe_env) : bool :=
  kzalloc_ok env && input_allocate_ok env && kcalloc_ok env && keymap_dup_ok env.

(** Every step of the probe succeeds. *)
Definition probe_succeeds (env : probe_env) : bool :=
  probe_reaches_registration env &&
  (input_register_ret env =? 0) &&
  (query_ret (block_query env) =? 0) &&
  (add_group_ret env =? 0).

(** A probe in which everything succeeds except the status query, whose
    block query returns NULL. *)
Definition query_fails_env : probe_env := ProbeEnv true true true true 0 None 0.

(** A probe in which the input device cannot be registered. *)
Definition register_fails_env : probe_env :=
  ProbeEnv true true true true (- ENOMEM) None 0.

(** An embedded controller that is present, has the [ECAK] method and
    evaluates it successfully. *)
Definition example_ec : ec_env := EcEnv (Some 1%nat) true 0.

(** Bookkeeping facts about the reachable states of the model, used by the
    proofs: the registration list holds no address twice, every drvdata
    entry is an address handed out by [devm_kzalloc], and every listed
    object was given an input device with the probe's keymap (a device that
    the probe's error path may since have freed, see [driver_live]). *)
Record driver_wf (s : driver) : Prop := DriverWf {
  wf_nodup : NoDup (wmi_list s);
  wf_drvdata : ∀ w p, drvdata s !! w = Some p → (p < length (objs s))%nat;
  wf_listed : ∀ p, p ∈ wmi_list s →
    ∃ d idev, objs s !! p = Some d ∧ input_dev d = Some idev ∧
              keycode idev = installed_keymap;
}.

(** A probe in which every kernel service succeeds and the firmware answers
    with the response encoding (features, status). *)
Definition response_env (features status : Z) : probe_env :=
  ProbeEnv true true true true 0
    (Some (ACPI_TYPE_BUFFER (encode_response features status))) 0.

(** The keymap the probe would install for a source table [src]: the
    [kcalloc] of [ARRAY_SIZE + 1] entries, the remap loop and the copy made
    by [sparse_keymap_setup]; [installed_keymap] is the instance at
    [dell_wmi_keymap_type_0012]. *)
Definition remapped_keymap (src : list key_entry) : list key_entry :=
  remap_loop src 0 (replicate (length src + 1) zeroed_key_entry).

Definition installed_keymap_of (src : list key_entry) : list key_entry :=
  take (keymap_size (remapped_keymap src)) (remapped_keymap src).

(** The state after a probe of device 7 in which [input_register_device]
    fails. *)
Definition example_unregistered : driver :=
  (probe_outcome register_fails_env 7 driver_init).2.

(** Every step of [dell_privacy_acpi_init] succeeds. *)
Definition acpi_init_succeeds (env : init_env) : bool :=
  init_has_guid env && init_kzalloc_ok env &&
  (platform_driver_register_ret env =? 0) &&
  match platform_device_register_simple env with
  | PdevOk _ => true
  | PdevErr _ => false
  end.

(** Every step of [init_dell_privacy] succeeds. *)
Definition init_succeeds (env : init_env) : bool :=
  (wmi_driver_register_ret env =? 0) && acpi_init_succeeds env.

(** [platform_device_register_simple] reports a failure by an [ERR_PTR],
    whose errno is never 0. *)
Definition pdev_error_nonzero (env : init_env) : Prop :=
  ∀ err, platform_device_register_simple env = PdevErr err → err ≠ 0.

(** A module load in which everything succeeds and platform device 4 is
    created, and one in which the platform device cannot be registered. *)
Definition example_init_env : init_env := InitEnv true 0 true 0 (PdevOk 4).

Definition example_pdev_fails_env : init_env :=
  InitEnv true 0 true 0 (PdevErr (- ENOMEM)).

(** The state after a probe of device 7 on a freshly loaded driver in which
    the status query fails: the instance is listed with a freed input
    device. *)
Definition example_zombie : driver :=
  (probe_outcome query_fails_env 7 driver_init).2.

(** The probe gets as far as [list_add_tail]: the allocations and the
    registration of the input device succeeded. *)
Definition probe_links (env : probe_env) : bool :=
  probe_reaches_registration env && (input_register_ret env =? 0).

(** Entry points that leave no half-torn-down instance on the list: a probe
    that links its instance must also succeed in the steps after linking. *)
Definition clean_op (o : op) : Prop :=
  match o with
  | OpProbe env _ => probe_links env = true → probe_succeeds env = true
  | _ => True
  end.

(** States reached from module load without a probe failing after it has
    linked its instance. *)
Inductive reachable_clean : driver → Prop :=
  | reachable_clean_init : reachable_clean driver_init
  | reachable_clean_step (o : op) (s s' : driver) :
      reachable_clean s → clean_op o → run_op o s = Some s' → reachable_clean s'.

(** Every listed instance is an allocated object whose input device is
    registered and carries the probe's keymap, and no instance is listed
    twice. *)
Record driver_live (s : driver) : Prop := DriverLive {
  live_nodup : NoDup (wmi_list s);
  live_listed : ∀ p, p ∈ wmi_list s →
    ∃ d idev, objs s !! p = Some d ∧ input_dev d = Some idev ∧
              keycode idev = installed_keymap ∧ dev_state idev = InputRegistered;
}.

(** * Properties *)

(** ** The keymap installed by the probe *)

Lemma installed_keymap_eq :
  installed_keymap =
  [ KeyEntry KE_KEY 0x120001 KEY_MICMUTE;
    KeyEntry KE_SW 0x120002 SW_CAMERA_LENS_COVER;
    KeyEntry KE_END 0x120000 0 ].
Proof. reflexivity. Qed.

Lemma keymap_pairs_eq : keymap_pairs = [ (0x0012, 1); (0x0012, 2) ].
Proof. reflexivity. Qed.

Section store_lemmas.
Context {A : Type}.

Lemma lookup_snoc (l : list A) (x : A) : (l ++ [x]) !! length l = Some x.
Proof. by rewrite list_lookup_middle. Qed.

Lemma insert_snoc (l : list A) (x y : A) : <[length l := y]> (l ++ [x]) = l ++ [y].
Proof.
  rewrite insert_app_r_alt by lia.
  by rewrite Nat.sub_diag.
Qed.

Lemma lookup_snoc_lt (l : list A) (x : A) (i : nat) :
  (i < length l)%nat → (l ++ [x]) !! i = l !! i.
Proof. intros. by rewrite lookup_app_l. Qed.
End store_lemmas.

Lemma load_snoc v wl o x dd lg :
  load (length o) (Driver v wl (o ++ [x]) dd lg) = Some (x, Driver v wl (o ++ [x]) dd lg).
Proof. unfold load. simpl. by rewrite lookup_snoc. Qed.

Lemma store_snoc v wl o x y dd lg :
  store (length o) y (Driver v wl (o ++ [x]) dd lg) = Some (tt, Driver v wl (o ++ [y]) dd lg).
Proof. unfold store, with_objs. simpl. by rewrite lookup_snoc, insert_snoc. Qed.

Lemma update_input_dev_snoc f v wl o i w ft st dd lg :
  dev_state i ≠ InputFreed →
  update_input_dev (length o) f (Driver v wl (o ++ [PrivData (Some i) w ft st]) dd lg)
  = Some (tt, Driver v wl (o ++ [PrivData (Some (f i)) w ft st]) dd lg).
Proof.
  intros Hlive.
  unfold update_input_dev, mbind, M_bind. rewrite load_snoc. simpl.
  destruct (dev_state i); try done; by rewrite store_snoc.
Qed.

Ltac run_prims :=
  cbv beta iota delta
    [mbind M_bind mret M_ret fault get_driver set_privacy_valid set_wmi_list
     devm_kzalloc dev_set_drvdata dev_get_drvdata sparse_keymap_report_entry
     list_add_tail err_free_dev err_free_keymap err_free_input
     input_free_device input_unregister_device sparse_keymap_setup
     with_valid with_list with_objs with_drvdata with_log
     privacy_valid wmi_list objs drvdata input_log
     set_wdev set_input_dev set_status_fields set_last_status
     input_dev wdev features_present last_status negb].

Ltac run_consts :=
  try change (- EIO =? 0) with false;
  try change (- EINVAL =? 0) with false;
  try change (0 =? 0) with true.

Ltac run_snoc :=
  repeat (run_prims; run_consts;
          rewrite ?load_snoc, ?store_snoc, ?lookup_insert_eq;
          rewrite ?update_input_dev_snoc by done).

(** *** The probe in closed form *)

Lemma probe_run env wdev s :
  dell_privacy_wmi_probe env wdev s = Some (probe_outcome env wdev s).
Proof.
  destruct s as [v wl o dd lg], env as [k1 k2 k3 k4 r5 q r7].
  unfold dell_privacy_wmi_probe, probe_outcome.
  cbn [kzalloc_ok input_allocate_ok kcalloc_ok keymap_dup_ok
       input_register_ret block_query add_group_ret
       privacy_valid wmi_list objs drvdata input_log].
  destruct k1; run_snoc; [|reflexivity].
  destruct k2; run_snoc; [|reflexivity].
  destruct k3; run_snoc; [|reflexivity].
  destruct k4; run_snoc; [|reflexivity].
  destruct (r5 =? 0); run_snoc; [|reflexivity].
  unfold get_current_status. run_snoc.
  destruct q as [[n|c|pointer|n]|]; run_snoc; try reflexivity.
  destruct (bool_decide (length pointer ≠ 8%nat)); run_snoc; [reflexivity|].
  destruct (r7 =? 0); run_snoc; reflexivity.
Qed.

(** *** The other entry points in closed form *)

Lemma get_current_status_run obj_present wdev s :
  get_current_status obj_present wdev s =
  match drvdata s !! wdev with
  | None => Some (- EINVAL, s)
  | Some priv =>
      match obj_present with
      | Some (ACPI_TYPE_BUFFER pointer) =>
          if bool_decide (length pointer ≠ 8%nat) then
            Some (- EINVAL, with_valid (- EINVAL) s)
          else
            match objs s !! priv with
            | Some d =>
                Some (0, with_valid 0
                           (with_objs (<[priv := set_status_fields d
                                                   (buffer_u32 pointer 0)
                                                   (buffer_u32 pointer 1)]> (objs s)) s))
            | None => None
            end
      | _ => Some (- EIO, with_valid (- EIO) s)
      end
  end.
Proof.
  destruct s as [v wl o dd lg].
  unfold get_current_status. run_prims.
  destruct (dd !! wdev) as [priv|]; [|reflexivity].
  destruct obj_present as [[n|c|pointer|n]|]; try reflexivity.
  destruct (bool_decide (length pointer ≠ 8%nat)); [reflexivity|].
  unfold load, store. run_prims.
  destruct (o !! priv) as [d|] eqn:Hd; run_prims; [rewrite Hd|]; reflexivity.
Qed.

Lemma remove_run wdev s r s' :
  dell_privacy_wmi_remove wdev s = Some (r, s') →
  ∃ priv d idev,
    drvdata s !! wdev = Some priv ∧ priv ∈ wmi_list s ∧
    objs s !! priv = Some d ∧ input_dev d = Some idev ∧
    dev_state idev ≠ InputFreed ∧
    r = 0 ∧ s' = remove_outcome s priv d idev.
Proof.
  destruct s as [v wl o dd lg].
  unfold dell_privacy_wmi_remove, list_del, remove_outcome. run_prims.
  destruct (dd !! wdev) as [priv|] eqn:Hdrv; [|discriminate].
  case_bool_decide as Hin; [|discriminate].
  unfold update_input_dev, load, store. run_prims.
  destruct (o !! priv) as [d|] eqn:Hd; [|discriminate].
  destruct d as [[[km st]|] w f c]; run_prims; [|discriminate].
  cbv beta iota delta [dev_state keycode].
  destruct st; try discriminate; run_prims; rewrite Hd; intros [= <- <-];
    (eexists priv, _, _; repeat split; eauto; done).
Qed.

Lemma remove_total wdev s priv d idev :
  drvdata s !! wdev = Some priv → priv ∈ wmi_list s →
  objs s !! priv = Some d → input_dev d = Some idev →
  dev_state idev ≠ InputFreed →
  dell_privacy_wmi_remove wdev s = Some (0, remove_outcome s priv d idev).
Proof.
  destruct s as [v wl o dd lg]. simpl. intros Hdrv Hin Hd Hi Hlive.
  unfold dell_privacy_wmi_remove, list_del, remove_outcome. run_prims.
  rewrite Hdrv. rewrite bool_decide_eq_true_2 by done.
  unfold update_input_dev, load, store. run_prims.
  rewrite Hd. destruct d as [i w f c]. simpl in Hi. subst i.
  destruct idev as [km st]. simpl in Hlive. run_prims.
  cbv beta iota delta [dev_state keycode].
  destruct st; try done; run_prims; by rewrite Hd.
Qed.

(** Removing an instance whose input device was already freed reaches
    [input_unregister_device] on the freed device. *)
Lemma remove_freed wdev s priv d idev :
  drvdata s !! wdev = Some priv →
  objs s !! priv = Some d → input_dev d = Some idev →
  dev_state idev = InputFreed →
  dell_privacy_wmi_remove wdev s = None.
Proof.
  destruct s as [v wl o dd lg]. simpl. intros Hdrv Hd Hi Hfreed.
  unfold dell_privacy_wmi_remove, list_del. run_prims.
  rewrite Hdrv. case_bool_decide; [|reflexivity].
  unfold update_input_dev, load, store. run_prims.
  rewrite Hd. destruct d as [i w f c]. simpl in Hi. subst i.
  destruct idev as [km st]. simpl in Hfreed. subst st. reflexivity.
Qed.

Lemma process_event_empty type code status s :
  wmi_list s = [] → dell_privacy_process_event type code status s = Some (tt, s).
Proof.
  destruct s as [v wl o dd lg]. simpl. intros ->.
  reflexivity.
Qed.

Lemma first_instance_inv s priv d idev :
  first_instance s = Some (priv, d, idev) →
  list_first_entry_or_null (wmi_list s) = Some priv ∧ objs s !! priv = Some d ∧
  input_dev d = Some idev ∧ dev_state idev ≠ InputFreed.
Proof.
  unfold first_instance.
  destruct (list_first_entry_or_null (wmi_list s)) as [p|] eqn:Hp; [|discriminate].
  simpl.
  destruct (objs s !! p) as [d0|] eqn:Hd; [|discriminate]. simpl.
  destruct (input_dev d0) as [i0|] eqn:Hi; [|discriminate]. simpl.
  destruct (dev_state i0) eqn:E; intros [= <- <- <-]; rewrite ?E; done.
Qed.

Lemma process_event_run type code status s priv d idev :
  first_instance s = Some (priv, d, idev) →
  dell_privacy_process_event type code status s
  = Some (tt, relay_outcome type code status s priv d idev).
Proof.
  intros (Hh & Hd & Hi & Hst)%first_instance_inv.
  destruct s as [v wl o dd lg]. simpl in Hh, Hd.
  unfold dell_privacy_process_event, relay_outcome, load_input_dev, load, store.
  run_prims. rewrite Hh, Hd. destruct d as [i w f c]. simpl in Hi. subst i.
  run_prims.
  destruct idev as [km st]. simpl in Hst.
  assert (Hlive : ∀ (k : input_dev_t → M unit) (t : driver),
            match (match st with
                   | InputFreed => λ _, None
                   | _ => λ s, Some (InputDev km st, s)
                   end : M input_dev_t) t with
            | Some (a, s') => k a s'
            | None => None
            end = k (InputDev km st) t).
  { intros k t. destruct st; done. }
  cbv beta iota delta [dev_state keycode].
  rewrite Hlive.
  destruct (sparse_keymap_entry_from_scancode km (scancode type code)) as [key|];
    [|reflexivity].
  destruct (code =? DELL_PRIVACY_TYPE_AUDIO); simpl.
  { rewrite Hd. run_prims. by rewrite Hd. }
  destruct (code =? DELL_PRIVACY_TYPE_CAMERA); simpl; [|reflexivity].
  rewrite Hd. run_prims. by rewrite Hd.
Qed.

Lemma process_event_fault type code status s priv :
  list_first_entry_or_null (wmi_list s) = Some priv → first_instance s = None →
  dell_privacy_process_event type code status s = None.
Proof.
  intros Hh Hf. unfold first_instance in Hf. rewrite Hh in Hf. simpl in Hf.
  destruct s as [v wl o dd lg]. simpl in Hh, Hf.
  unfold dell_privacy_process_event, load_input_dev, load. run_prims.
  rewrite Hh.
  destruct (o !! priv) as [d|]; [|reflexivity]. simpl in Hf.
  destruct d as [[idev|] w f c]; [|reflexivity]. simpl in Hf.
  destruct idev as [km st]. simpl in Hf.
  destruct st; done.
Qed.

Lemma dell_privacy_valid_run g s :
  dell_privacy_valid g s = Some (if g then privacy_valid s else - ENODEV, s).
Proof. by destruct g. Qed.

Lemma show_state_unchanged dev s r s' :
  devices_supported_show dev s = Some (r, s') ∨ current_state_show dev s = Some (r, s') →
  s' = s.
Proof.
  destruct s as [v wl o dd lg].
  unfold devices_supported_show, current_state_show, load. run_prims.
  destruct (dd !! dev) as [p|]; [|intros [|]; discriminate].
  destruct (o !! p); intros [|]; congruence.
Qed.

(** ** Invariants of the reachable states *)

Lemma driver_init_inv : driver_inv driver_init.
Proof.
  split; simpl.
  - intros _. unfold EPROBE_DEFER. lia.
  - intros p Hp. by apply elem_of_nil in Hp.
  - intros p d idev Hp. by apply elem_of_nil in Hp.
Qed.

(** The three shapes a probe's final state can take. *)
Lemma probe_outcome_shape env wdev s :
  let r := probe_outcome env wdev s in
  r.2 = s ∨
  (∃ valid d,
      r.2 = Driver valid (wmi_list s) (objs s ++ [d])
                   (<[wdev := length (objs s)]> (drvdata s)) (input_log s) ∧
      (valid = privacy_valid s ∨ valid = - ENODEV)) ∨
  (∃ valid d idev,
      r.2 = Driver valid (wmi_list s ++ [length (objs s)]) (objs s ++ [d])
                   (<[wdev := length (objs s)]> (drvdata s)) (input_log s) ∧
      input_dev d = Some idev ∧ keycode idev = installed_keymap).
Proof.
  destruct env as [k1 k2 k3 k4 r5 q r7]. unfold probe_outcome.
  cbn [kzalloc_ok input_allocate_ok kcalloc_ok keymap_dup_ok
       input_register_ret block_query add_group_ret].
  destruct k1; simpl; [|by left].
  destruct k2; simpl; [|right; left; eauto].
  destruct k3; simpl; [|right; left; eauto].
  destruct k4; simpl; [|right; left; eauto].
  destruct (r5 =? 0); simpl; [|right; left; eauto].
  right; right.
  destruct q as [[n|c|pointer|n]|]; simpl; eauto 10.
  destruct (bool_decide (length pointer ≠ 8%nat)); simpl; eauto 10.
  destruct (r7 =? 0); simpl; eauto 10.
Qed.

Lemma probe_preserves_inv env wdev s r s' :
  driver_inv s → dell_privacy_wmi_probe env wdev s = Some (r, s') → driver_inv s'.
Proof.
  intros [Hv Hb Hk]. rewrite probe_run. intros [= Hr].
  pose proof (probe_outcome_shape env wdev s) as Hs. simpl in Hs.
  rewrite Hr in Hs. simpl in Hs. clear Hr.
  destruct Hs as [->|[(valid & d & -> & Hval)|(valid & d & idev & -> & Hi & Hkm)]].
  - by split.
  - split; simpl.
    + intros Hl. destruct Hval as [->| ->]; [auto|]. unfold ENODEV. lia.
    + intros p Hp. rewrite length_app. specialize (Hb p Hp). simpl. lia.
    + intros p d0 idev Hp. rewrite lookup_snoc_lt by auto. eauto.
  - split; simpl.
    + intros Hl. by apply app_eq_nil in Hl as [_ ?].
    + intros p [Hp| ->%list_elem_of_singleton]%elem_of_app; rewrite length_app; simpl.
      * specialize (Hb p Hp). lia.
      * lia.
    + intros p d0 idev0 [Hp| ->%list_elem_of_singleton]%elem_of_app.
      * rewrite lookup_snoc_lt by auto. eauto.
      * rewrite lookup_snoc. intros [= <-]. rewrite Hi. by intros [= <-].
Qed.

Lemma remove_preserves_inv wdev s r s' :
  driver_inv s → dell_privacy_wmi_remove wdev s = Some (r, s') → driver_inv s'.
Proof.
  intros [Hv Hb Hk] (priv & d & idev & Hdrv & Hin & Hd & Hi & _ & -> & ->)%remove_run.
  split; simpl.
  - intros _. unfold ENODEV. lia.
  - intros p [_ Hp]%list_elem_of_filter. rewrite length_insert. auto.
  - intros p d0 idev0 [Hne Hp]%list_elem_of_filter.
    rewrite list_lookup_insert_ne by done. eauto.
Qed.

Lemma process_event_preserves_inv type code status s r s' :
  driver_inv s → dell_privacy_process_event type code status s = Some (r, s') →
  driver_inv s'.
Proof.
  intros Hinv Hrun.
  destruct (list_first_entry_or_null (wmi_list s)) as [priv|] eqn:Hh.
  - destruct (first_instance s) as [[[p d] idev]|] eqn:Hf.
    + rewrite (process_event_run _ _ _ _ _ _ _ Hf) in Hrun.
      injection Hrun as _ <-.
      apply first_instance_inv in Hf as (Hp & Hd & Hi & Hst).
      unfold relay_outcome.
      destruct (sparse_keymap_entry_from_scancode _ _) as [key|]; [|done].
      destruct (_ || _); [|done].
      destruct Hinv as [Hv Hb Hk].
      split; simpl; [done| |].
      * intros q Hq. rewrite length_insert. auto.
      * intros q d0 idev0 Hq.
        destruct (decide (p = q)) as [<-|Hne].
        -- rewrite list_lookup_insert_eq by eauto using lookup_lt_Some.
           intros [= <-]. simpl. eauto.
        -- rewrite list_lookup_insert_ne by done. eauto.
    + by rewrite (process_event_fault _ _ _ _ _ Hh Hf) in Hrun.
  - unfold list_first_entry_or_null in Hh. apply head_None in Hh.
    rewrite process_event_empty in Hrun by done. by injection Hrun as _ <-.
Qed.

Lemma run_op_preserves_inv o s s' :
  driver_inv s → run_op o s = Some s' → driver_inv s'.
Proof.
  intros Hinv.
  destruct o as [env wdev|wdev|type code status|g|dev|dev]; simpl;
    intros ([r s0] & Hrun & ->)%fmap_Some; simpl.
  - eauto using probe_preserves_inv.
  - eauto using remove_preserves_inv.
  - eauto using process_event_preserves_inv.
  - rewrite dell_privacy_valid_run in Hrun. by injection Hrun as _ <-.
  - by rewrite (show_state_unchanged dev s r s0) by auto.
  - by rewrite (show_state_unchanged dev s r s0) by auto.
Qed.

Lemma reachable_inv s : reachable s → driver_inv s.
Proof.
  induction 1 as [|o s s' _ IH Hrun].
  - apply driver_init_inv.
  - eauto using run_op_preserves_inv.
Qed.

(** ** The composite scancode *)

Lemma to_u32_small x : 0 ≤ x < 2 ^ 32 → to_u32 x = x.
Proof. intros. unfold to_u32. by apply Z.mod_small. Qed.

Lemma lor_shifted k c : 0 ≤ c < 2 ^ 16 → Z.lor (k * 2 ^ 16) c = k * 2 ^ 16 + c.
Proof.
  intros Hc.
  assert (Hland : Z.land (k * 2 ^ 16) c = 0).
  { apply Z.bits_inj'. intros n Hn.
    rewrite Z.land_spec, Z.bits_0.
    destruct (Z_lt_le_dec n 16) as [Hlt|Hge].
    - by rewrite Z.mul_pow2_bits_low.
    - rewrite <- (Z.mod_small c (2 ^ 16)) by lia.
      rewrite Z.mod_pow2_bits_high by lia.
      apply andb_false_r. }
  pose proof (Z.add_lor_land (k * 2 ^ 16) c) as H.
  rewrite Hland in H. lia.
Qed.

(** For 16-bit type and code the composite scancode is the concatenation
    [type:code]. *)
Lemma scancode_u16 type code :
  0 ≤ type < 2 ^ 16 → 0 ≤ code < 2 ^ 16 → scancode type code = type * 2 ^ 16 + code.
Proof.
  intros Ht Hc. unfold scancode, to_int, to_u32.
  rewrite Z.shiftl_mul_pow2 by lia.
  set (x := type * 2 ^ 16).
  rewrite (Z.mod_eq (x + 2 ^ 31) (2 ^ 32)) by lia.
  set (q := (x + 2 ^ 31) / 2 ^ 32).
  replace (x + 2 ^ 31 - 2 ^ 32 * q - 2 ^ 31) with ((type - 2 ^ 16 * q) * 2 ^ 16)
    by (unfold x; lia).
  rewrite lor_shifted by lia.
  replace ((type - 2 ^ 16 * q) * 2 ^ 16 + code) with (x + code + (- q) * 2 ^ 32)
    by (unfold x; lia).
  rewrite Z.mod_add by lia.
  apply Z.mod_small. unfold x. lia.
Qed.

Lemma installed_keymap_lookup sc :
  sparse_keymap_entry_from_scancode installed_keymap sc =
  if sc =? 0x120001 then Some (KeyEntry KE_KEY 0x120001 KEY_MICMUTE)
  else if sc =? 0x120002 then Some (KeyEntry KE_SW 0x120002 SW_CAMERA_LENS_COVER)
  else None.
Proof. reflexivity. Qed.

(** ** Event relay (C1, C10) *)

(** C1.  In a state the driver can reach, with a usable first registered
    instance: for each (type, code) pair of the Keymap Table (type 0x0012
    with code 1 or 2), [dell_privacy_process_event] stores the status (as the
    u32 it is assigned to, which is the status itself when it fits 32 bits)
    in the first instance's [last_status] and makes exactly one report to the
    input core; for every other pair of 16-bit values the state, hence
    [last_status] and the log of input reports, is left as it was. *)
Theorem process_event_keymap_table s priv d idev type code status :
  reachable s →
  first_instance s = Some (priv, d, idev) →
  ((type, code) ∈ keymap_pairs →
   ∃ key s',
     dell_privacy_process_event type code status s = Some (tt, s') ∧
     key ∈ installed_keymap ∧
     objs s' = <[priv := set_last_status d (to_u32 status)]> (objs s) ∧
     last_status <$> objs s' !! priv = Some (to_u32 status) ∧
     (0 ≤ status < 2 ^ 32 → last_status <$> objs s' !! priv = Some status) ∧
     input_log s' = input_log s ++ [ReportEntry priv key 1 true])
  ∧
  (0 ≤ type < 2 ^ 16 → 0 ≤ code < 2 ^ 16 → (type, code) ∉ keymap_pairs →
   dell_privacy_process_event type code status s = Some (tt, s)).
Proof.
  intros Hreach Hf.
  pose proof (reachable_inv s Hreach) as [_ _ Hk].
  pose proof (first_instance_inv _ _ _ _ Hf) as (Hh & Hd & Hi & Hst).
  assert (Hkm : keycode idev = installed_keymap).
  { eapply Hk; eauto. apply head_Some_elem_of, Hh. }
  rewrite (process_event_run _ _ _ _ _ _ _ Hf).
  unfold relay_outcome. rewrite Hkm, installed_keymap_lookup.
  assert (Hlt : (priv < length (objs s))%nat) by eauto using lookup_lt_Some.
  split.
  - rewrite keymap_pairs_eq.
    intros [[= -> ->]|[[= -> ->]|[]%elem_of_nil]%elem_of_cons]%elem_of_cons.
    + exists (KeyEntry KE_KEY 0x120001 KEY_MICMUTE). eexists. split; [reflexivity|].
      simpl. rewrite list_lookup_insert_eq by done. simpl.
      repeat split; try done.
      * rewrite installed_keymap_eq. apply elem_of_cons. by left.
      * intros Hs. by rewrite to_u32_small.
    + exists (KeyEntry KE_SW 0x120002 SW_CAMERA_LENS_COVER). eexists.
      split; [reflexivity|].
      simpl. rewrite list_lookup_insert_eq by done. simpl.
      repeat split; try done.
      * rewrite installed_keymap_eq. apply elem_of_cons. right.
        apply elem_of_cons. by left.
      * intros Hs. by rewrite to_u32_small.
  - intros Ht Hc Hnot. rewrite scancode_u16 by done.
    rewrite keymap_pairs_eq in Hnot.
    assert (Hne : ¬ (type = 0x12 ∧ (code = 1 ∨ code = 2))).
    { intros [-> [-> | ->]]; apply Hnot.
      - apply elem_of_cons. by left.
      - apply elem_of_cons. right. apply elem_of_cons. by left. }
    unfold DELL_PRIVACY_TYPE_AUDIO, DELL_PRIVACY_TYPE_CAMERA.
    destruct (Z.eqb_spec (type * 2 ^ 16 + code) 0x120001) as [E1|E1].
    { assert (type = 0x12 ∧ code = 1) as [-> ->] by lia. exfalso. apply Hne. auto. }
    destruct (Z.eqb_spec (type * 2 ^ 16 + code) 0x120002) as [E2|E2].
    { assert (type = 0x12 ∧ code = 2) as [-> ->] by lia. exfalso. apply Hne. auto. }
    reflexivity.
Qed.

(** Outside the 16-bit range the composite scancode wraps: a type that
    agrees with 0x0012 on its low 16 bits yields a scancode of the table, and
    the event is relayed like one of type 0x0012. *)
Remark scancode_wraps : scancode 0x10012 1 = 0x120001.
Proof. reflexivity. Qed.

Remark process_event_wide_type :
  ∃ s', dell_privacy_process_event 0x10012 1 5 example_probed = Some (tt, s') ∧
        last_status <$> objs s' !! 0%nat = Some 5 ∧
        length (input_log s') = 1%nat.
Proof. eexists. split; [reflexivity|]. split; reflexivity. Qed.

Lemma example_probed_reachable : reachable example_probed.
Proof.
  apply (reachable_step (OpProbe example_env 7) driver_init); [constructor|].
  reflexivity.
Defined.

Lemma process_event_keymap_table_witness :
  (∃ key s',
     dell_privacy_process_event 0x0012 2 3 example_probed = Some (tt, s') ∧
     key ∈ installed_keymap ∧
     last_status <$> objs s' !! 0%nat = Some 3 ∧
     input_log s' = [ReportEntry 0 key 1 true])
  ∧ dell_privacy_process_event 0x0013 1 3 example_probed = Some (tt, example_probed).
Proof.
  split.
  - destruct (process_event_keymap_table example_probed 0
                (PrivData (Some (InputDev installed_keymap InputRegistered)) (Some 7%nat) 3 1)
                (InputDev installed_keymap InputRegistered) 0x0012 2 3
                example_probed_reachable eq_refl) as [Hin _].
    destruct Hin as (key & s' & Hrun & Hkey & _ & _ & Hst & Hlog).
    { vm_compute. apply elem_of_cons. right. apply elem_of_cons. by left. }
    exists key, s'. repeat split; try done. apply Hst. lia.
  - destruct (process_event_keymap_table example_probed 0
                (PrivData (Some (InputDev installed_keymap InputRegistered)) (Some 7%nat) 3 1)
                (InputDev installed_keymap InputRegistered) 0x0013 1 3
                example_probed_reachable eq_refl) as [_ Hout].
    apply Hout; [lia|lia|].
    vm_compute.
    intros [[=]|[[=]|[]%elem_of_nil]%elem_of_cons]%elem_of_cons.
Defined.

(** C10.  Whenever the registration list is empty or its first instance is
    usable, [dell_privacy_process_event] returns (it has no error result)
    for every (type, code, status); it leaves [privacy_valid], the
    registration list, the drvdata table and the number of objects alone,
    never changes any [features_present], leaves every object other than the
    first registered one untouched, and of the first instance changes at most
    [last_status]. *)
Theorem process_event_frame s type code status :
  wmi_list s = [] ∨ is_Some (first_instance s) →
  ∃ s',
    dell_privacy_process_event type code status s = Some (tt, s') ∧
    privacy_valid s' = privacy_valid s ∧
    wmi_list s' = wmi_list s ∧
    drvdata s' = drvdata s ∧
    length (objs s') = length (objs s) ∧
    (∀ p, features_present <$> objs s' !! p = features_present <$> objs s !! p) ∧
    (∀ p, list_first_entry_or_null (wmi_list s) ≠ Some p → objs s' !! p = objs s !! p) ∧
    (∀ p d, list_first_entry_or_null (wmi_list s) = Some p → objs s !! p = Some d →
            ∃ v, objs s' !! p = Some (set_last_status d v)).
Proof.
  intros [Hnil|[[[priv d] idev] Hf]].
  - exists s. rewrite process_event_empty by done.
    repeat split; try done.
    intros p d Hp. by rewrite Hnil in Hp.
  - rewrite (process_event_run _ _ _ _ _ _ _ Hf).
    apply first_instance_inv in Hf as (Hh & Hd & Hi & Hst).
    eexists. split; [reflexivity|].
    assert (Hid : set_last_status d (last_status d) = d) by by destruct d.
    unfold relay_outcome.
    destruct (sparse_keymap_entry_from_scancode _ _) as [key|];
      [destruct (_ || _)|]; simpl.
    2,3: repeat split; try done;
         intros p d0 Hp Hd0; exists (last_status d0); by destruct d0.
    repeat split; try done.
    + apply length_insert.
    + intros p. destruct (decide (priv = p)) as [<-|Hne].
      * rewrite list_lookup_insert_eq by eauto using lookup_lt_Some.
        by rewrite Hd.
      * by rewrite list_lookup_insert_ne.
    + intros p Hp. rewrite list_lookup_insert_ne; [done|]. congruence.
    + intros p d0 Hp Hd0. rewrite Hh in Hp. injection Hp as <-.
      rewrite Hd in Hd0. injection Hd0 as <-.
      exists (to_u32 status).
      by rewrite list_lookup_insert_eq by eauto using lookup_lt_Some.
Qed.

Lemma process_event_frame_witness :
  ∃ s',
    dell_privacy_process_event 0x0012 1 0 example_probed = Some (tt, s') ∧
    privacy_valid s' = 0 ∧ wmi_list s' = [0%nat] ∧
    features_present <$> objs s' !! 0%nat = Some 3.
Proof.
  destruct (process_event_frame example_probed 0x0012 1 0) as
    (s' & Hrun & Hv & Hl & _ & _ & Hfp & _).
  { right. vm_compute. eauto. }
  exists s'. rewrite Hv, Hl, Hfp. done.
Defined.

(** ** Validity gate (C7, C9) *)

(** C7.  In every state reachable from module load by probes, removals,
    events, validity queries and attribute reads in any order, an empty
    registration list implies that [privacy_valid] is a negative error code
    (so not the valid value 0). *)
Theorem no_instance_invalid s :
  reachable s → wmi_list s = [] → privacy_valid s < 0 ∧ privacy_valid s ≠ 0.
Proof.
  intros Hreach Hnil.
  pose proof (inv_valid s (reachable_inv s Hreach) Hnil). lia.
Qed.

Lemma example_removed_reachable : reachable example_removed.
Proof.
  apply (reachable_step (OpRemove 7) example_probed);
    [apply example_probed_reachable|].
  reflexivity.
Defined.

Lemma no_instance_invalid_witness :
  privacy_valid example_removed < 0 ∧ privacy_valid example_removed ≠ 0.
Proof.
  apply (no_instance_invalid example_removed example_removed_reachable).
  reflexivity.
Defined.

(** C9.  [dell_privacy_valid] is a cached read: on any driver state (and
    whether or not the GUID is present) it returns a value and hands back the
    state it was given, and any number of calls in a row return that same
    value every time, again without changing the state. *)
Theorem dell_privacy_valid_idempotent (g : bool) (s : driver) (n : nat) :
  ∃ r,
    dell_privacy_valid g s = Some (r, s) ∧
    repeat_valid g n s = Some (replicate n r, s).
Proof.
  exists (if g then privacy_valid s else - ENODEV).
  split; [apply dell_privacy_valid_run|].
  induction n as [|n IH]; [reflexivity|].
  cbn [repeat_valid]. unfold mbind, M_bind at 1.
  rewrite dell_privacy_valid_run.
  unfold mbind, M_bind. rewrite IH. reflexivity.
Qed.

(** ** Status query (C5, C6, C8) *)

(** *** Encoding of the response and hexadecimal text *)

Lemma byte_val_of x : byte_val (byte_of x) = x mod 256.
Proof.
  unfold byte_val, byte_of.
  assert (Hr : 0 ≤ x mod 256 < 256) by (apply Z.mod_pos_bound; lia).
  destruct (Byte.of_N (Z.to_N (x mod 256))) as [b|] eqn:E.
  - apply Byte.to_of_N in E. rewrite E. lia.
  - apply Byte.of_N_None_iff in E. lia.
Qed.

Lemma le32_word v : 0 ≤ v < 2 ^ 32 →
  byte_val (byte_of v) + 2 ^ 8 * byte_val (byte_of (v / 2 ^ 8))
  + 2 ^ 16 * byte_val (byte_of (v / 2 ^ 16))
  + 2 ^ 24 * byte_val (byte_of (v / 2 ^ 24)) = v.
Proof.
  intros Hv. rewrite !byte_val_of.
  change (2 ^ 8) with 256. change (2 ^ 16) with 65536.
  change (2 ^ 24) with 16777216. change (2 ^ 32) with 4294967296 in Hv.
  Z.div_mod_to_equations. lia.
Qed.

Lemma buffer_u32_encode features status :
  0 ≤ features < 2 ^ 32 → 0 ≤ status < 2 ^ 32 →
  buffer_u32 (encode_response features status) 0 = features ∧
  buffer_u32 (encode_response features status) 1 = status.
Proof.
  intros Hf Hs. unfold encode_response, le32, buffer_u32. simpl drop. cbv iota.
  split; by apply le32_word.
Qed.

Lemma hex_digit_value_digit d : 0 ≤ d < 16 → hex_digit_value (hex_digit d) = Some d.
Proof.
  intros Hd.
  assert (d = 0 ∨ d = 1 ∨ d = 2 ∨ d = 3 ∨ d = 4 ∨ d = 5 ∨ d = 6 ∨ d = 7 ∨
          d = 8 ∨ d = 9 ∨ d = 10 ∨ d = 11 ∨ d = 12 ∨ d = 13 ∨ d = 14 ∨ d = 15)
    as H by lia.
  repeat (destruct H as [->|H]; [reflexivity|]). by subst.
Qed.

Lemma parse_fmt_x_digits fuel v acc :
  0 ≤ v < 16 ^ Z.of_nat fuel → fuel ≠ O →
  parse_hex_from 0 (fmt_x_digits fuel v acc) = parse_hex_from v acc.
Proof.
  revert v acc. induction fuel as [|fuel IH]; intros v acc Hv Hfuel; [done|].
  cbn [fmt_x_digits].
  assert (Hd : 0 ≤ v mod 16 < 16) by (apply Z.mod_pos_bound; lia).
  assert (Hstep : parse_hex_from (v / 16) (String (hex_digit (v mod 16)) acc)
                  = parse_hex_from v acc).
  { cbn [parse_hex_from]. rewrite hex_digit_value_digit by done.
    f_equal. pose proof (Z.div_mod v 16). lia. }
  destruct (Z.eqb_spec (v / 16) 0) as [E|E].
  - rewrite <- Hstep, E. reflexivity.
  - rewrite IH; [exact Hstep| |].
    + rewrite Nat2Z.inj_succ, Z.pow_succ_r in Hv by lia.
      split; [apply Z.div_pos; lia|].
      apply Z.div_lt_upper_bound; lia.
    + intros ->. apply E. apply Z.div_small.
      change (16 ^ Z.of_nat 1) with 16 in Hv. lia.
Qed.

Lemma fmt_x_digits_nonempty fuel v acc :
  fuel ≠ O → fmt_x_digits fuel v acc ≠ EmptyString.
Proof.
  revert v acc. induction fuel as [|fuel IH]; intros v acc Hfuel; [done|].
  cbn [fmt_x_digits]. destruct (v / 16 =? 0); [done|].
  destruct fuel; [done|]. by apply IH.
Qed.

(** The text produced by ["%x"] reads back as the value it was given. *)
Lemma parse_hex_fmt_x v : 0 ≤ v < 2 ^ 32 → parse_hex (fmt_x v) = Some v.
Proof.
  intros Hv. unfold parse_hex, fmt_x.
  pose proof (fmt_x_digits_nonempty 8 v EmptyString) as Hne.
  destruct (fmt_x_digits 8 v EmptyString) eqn:E; [by destruct Hne|].
  rewrite <- E. rewrite parse_fmt_x_digits; [reflexivity| |done].
  change (16 ^ Z.of_nat 8) with (2 ^ 32). lia.
Qed.

Section status_query.
(** A device [wdev] whose drvdata points to the allocated object [d]. *)
Variables (s : driver) (wdev priv : nat) (d : privacy_wmi_data).
Hypothesis Hdrv : drvdata s !! wdev = Some priv.
Hypothesis Hd : objs s !! priv = Some d.

(** C5.  For a device whose drvdata points to an allocated object,
    [get_current_status] returns [-EIO] when the block query yields NULL or
    an object that is not a buffer, and [-EINVAL] when the buffer is not 8
    bytes long, each time leaving that same code in [privacy_valid]; for an
    8-byte buffer it returns 0, sets [privacy_valid] to 0 and fills
    [features_present] and [last_status] from the first and second 32-bit
    word of the buffer. *)
Theorem get_current_status_outcomes :
  get_current_status None wdev s = Some (- EIO, with_valid (- EIO) s)
  ∧ (∀ obj, is_buffer obj = false →
       get_current_status (Some obj) wdev s = Some (- EIO, with_valid (- EIO) s))
  ∧ (∀ pointer, length pointer ≠ 8%nat →
       get_current_status (Some (ACPI_TYPE_BUFFER pointer)) wdev s
       = Some (- EINVAL, with_valid (- EINVAL) s))
  ∧ (∀ pointer, length pointer = 8%nat →
       ∃ s', get_current_status (Some (ACPI_TYPE_BUFFER pointer)) wdev s = Some (0, s') ∧
             privacy_valid s' = 0 ∧
             objs s' !! priv
             = Some (set_status_fields d (buffer_u32 pointer 0) (buffer_u32 pointer 1)) ∧
             features_present <$> objs s' !! priv = Some (buffer_u32 pointer 0) ∧
             last_status <$> objs s' !! priv = Some (buffer_u32 pointer 1)).
Proof.
  split; [|split; [|split]].
  - rewrite get_current_status_run, Hdrv. reflexivity.
  - intros obj Hobj. rewrite get_current_status_run, Hdrv.
    destruct obj; done.
  - intros pointer Hlen. rewrite get_current_status_run, Hdrv.
    by rewrite bool_decide_eq_true_2.
  - intros pointer Hlen. rewrite get_current_status_run, Hdrv, Hd.
    rewrite bool_decide_eq_false_2 by (intros ?; contradiction).
    eexists. split; [reflexivity|]. simpl.
    rewrite list_lookup_insert_eq by eauto using lookup_lt_Some.
    done.
Qed.

(** C8.  For every pair (features, status) of 32-bit values, the status query
    answered with the well-formed response encoding that pair succeeds and
    leaves [features_present = features] and [last_status = status] in the
    instance; the attributes [devices_supported] and [current_state] then
    show exactly the lower-case hexadecimal text of these two values (each
    followed by a newline), text that reads back as the same values. *)
Theorem probe_response_round_trip features status :
  0 ≤ features < 2 ^ 32 →
  0 ≤ status < 2 ^ 32 →
  ∃ s',
    get_current_status (Some (ACPI_TYPE_BUFFER (encode_response features status))) wdev s
    = Some (0, s') ∧
    features_present <$> objs s' !! priv = Some features ∧
    last_status <$> objs s' !! priv = Some status ∧
    devices_supported_show wdev s' = Some (sysfs_emit_x features, s') ∧
    current_state_show wdev s' = Some (sysfs_emit_x status, s') ∧
    sysfs_emit_x features = (fmt_x features ++ String "010" EmptyString)%string ∧
    sysfs_emit_x status = (fmt_x status ++ String "010" EmptyString)%string ∧
    parse_hex (fmt_x features) = Some features ∧
    parse_hex (fmt_x status) = Some status.
Proof.
  intros Hf Hs.
  destruct (buffer_u32_encode features status Hf Hs) as [E0 E1].
  rewrite get_current_status_run, Hdrv, Hd.
  rewrite bool_decide_eq_false_2 by (intros H; by apply H).
  rewrite E0, E1.
  eexists. split; [reflexivity|].
  assert (Hlt : (priv < length (objs s))%nat) by eauto using lookup_lt_Some.
  unfold devices_supported_show, current_state_show, load, mbind, M_bind,
    dev_get_drvdata, mret, M_ret.
  simpl. rewrite Hdrv. rewrite list_lookup_insert_eq by done. simpl.
  rewrite list_lookup_insert_eq by done. simpl.
  split; [done|]. split; [done|]. split; [done|]. split; [done|].
  split; [done|]. split; [done|].
  split; by apply parse_hex_fmt_x.
Qed.

End status_query.

Lemma get_current_status_outcomes_witness :
  (fst <$> get_current_status None 7 example_probed) = Some (- EIO)
  ∧ (privacy_valid ∘ snd <$> get_current_status None 7 example_probed) = Some (- EIO)
  ∧ get_current_status (Some (ACPI_TYPE_INTEGER 5)) 7 example_probed
    = Some (- EIO, with_valid (- EIO) example_probed)
  ∧ get_current_status (Some (ACPI_TYPE_BUFFER [Byte.x01])) 7 example_probed
    = Some (- EINVAL, with_valid (- EINVAL) example_probed)
  ∧ ∃ s', get_current_status (Some (ACPI_TYPE_BUFFER example_response)) 7 example_probed
          = Some (0, s') ∧
          privacy_valid s' = 0 ∧
          features_present <$> objs s' !! 0%nat = Some 3 ∧
          last_status <$> objs s' !! 0%nat = Some 1.
Proof.
  destruct (get_current_status_outcomes example_probed 7 0
              (PrivData (Some (InputDev installed_keymap InputRegistered)) (Some 7%nat) 3 1)
              eq_refl eq_refl) as (Hnull & Hobj & Hlen & Hok).
  split; [|split; [|split; [|split]]].
  - by rewrite Hnull.
  - by rewrite Hnull.
  - apply Hobj. reflexivity.
  - apply Hlen. simpl. lia.
  - destruct (Hok example_response eq_refl) as (s' & Hrun & Hv & _ & Hf & Hl).
    exists s'. done.
Defined.

Lemma probe_response_round_trip_witness :
  ∃ s',
    get_current_status (Some (ACPI_TYPE_BUFFER (encode_response 0x3 0x1))) 7 example_removed
    = Some (0, s') ∧
    (fst <$> devices_supported_show 7 s') = Some (String "3" (String "010" EmptyString)) ∧
    (fst <$> current_state_show 7 s') = Some (String "1" (String "010" EmptyString)).
Proof.
  destruct (probe_response_round_trip example_removed 7 0
              (PrivData (Some (InputDev installed_keymap InputUnregistered)) (Some 7%nat) 3 1)
              eq_refl eq_refl 0x3 0x1) as (s' & Hrun & _ & _ & Hsup & Hcur & _).
  - lia.
  - lia.
  - exists s'. rewrite Hrun, Hsup, Hcur. done.
Defined.

(** C6.  With a response buffer whose length is not 8, [get_current_status]
    returns [-EINVAL] and changes no object, so [features_present] and
    [last_status] of every instance keep the values they had; inside a probe
    the object was zero-allocated just before, so both fields of the new
    instance are 0 and those of the older objects are as before. *)
Theorem get_current_status_bad_length s wdev pointer :
  length pointer ≠ 8%nat →
  (∃ s', get_current_status (Some (ACPI_TYPE_BUFFER pointer)) wdev s = Some (- EINVAL, s') ∧
         objs s' = objs s ∧ wmi_list s' = wmi_list s ∧ drvdata s' = drvdata s)
  ∧ (∀ env, block_query env = Some (ACPI_TYPE_BUFFER pointer) →
       ∃ r s', dell_privacy_wmi_probe env wdev s = Some (r, s') ∧
               take (length (objs s)) (objs s') = objs s ∧
               (kzalloc_ok env = true →
                features_present <$> objs s' !! length (objs s) = Some 0 ∧
                last_status <$> objs s' !! length (objs s) = Some 0)).
Proof.
  intros Hlen. split.
  - rewrite get_current_status_run.
    destruct (drvdata s !! wdev) as [priv|].
    + rewrite bool_decide_eq_true_2 by done. eexists. split; [reflexivity|]. done.
    + eexists. split; [reflexivity|]. done.
  - intros env Hq. rewrite probe_run.
    destruct env as [k1 k2 k3 k4 r5 q r7]. simpl in Hq. subst q.
    unfold probe_outcome.
    cbn [kzalloc_ok input_allocate_ok kcalloc_ok keymap_dup_ok
         input_register_ret block_query add_group_ret].
    rewrite bool_decide_eq_true_2 by done.
    destruct k1; simpl.
    2: { eexists _, _. split; [reflexivity|]. split; [|done].
         by rewrite firstn_all. }
    destruct k2, k3, k4, (r5 =? 0); simpl;
      (eexists _, _; split; [reflexivity|]; simpl;
       rewrite take_app_length, lookup_snoc; done).
Qed.

Lemma get_current_status_bad_length_witness :
  (fst <$> get_current_status (Some (ACPI_TYPE_BUFFER [Byte.x01; Byte.x02])) 7 example_probed)
  = Some (- EINVAL)
  ∧ (objs ∘ snd <$> get_current_status (Some (ACPI_TYPE_BUFFER [Byte.x01; Byte.x02])) 7
                      example_probed)
    = Some (objs example_probed).
Proof.
  destruct (get_current_status_bad_length example_probed 7 [Byte.x01; Byte.x02])
    as [(s' & Hrun & Ho & _) _].
  { simpl. lia. }
  rewrite Hrun. simpl. by rewrite Ho.
Defined.

(** ** What the validity gate answers over the instance life cycle (C4) *)

Ltac split_andb :=
  repeat match goal with
         | H : _ && _ = true |- _ => apply andb_true_iff in H as [? ?]
         end.

(** C4 as stated fails: with the GUID present and nothing registered yet,
    the gate answers [-EPROBE_DEFER], which is not [-ENODEV] (NotFound). *)
Lemma dell_privacy_valid_before_probe_not_enodev :
  dell_privacy_valid true driver_init = Some (- EPROBE_DEFER, driver_init) ∧
  ¬ (∃ s', dell_privacy_valid true driver_init = Some (- ENODEV, s')).
Proof.
  split; [reflexivity|].
  intros [s' H]. vm_compute in H. discriminate.
Qed.

(** C4, amended.  [dell_privacy_valid] answers [-ENODEV] whenever the GUID is
    absent.  With the GUID present it answers [-EPROBE_DEFER] before any
    registration, 0 after a probe in which every step succeeded, and
    [-ENODEV], the code the error path and the removal record last, after a
    probe that fails at or after the registration of the input device and
    after the removal of a registered instance whose input device has not
    been freed; a probe that fails earlier, on an allocation, returns
    [-ENOMEM], records nothing and leaves the answer as it was. *)
Theorem dell_privacy_valid_answers :
  (∀ s, dell_privacy_valid false s = Some (- ENODEV, s))
  ∧ dell_privacy_valid true driver_init = Some (- EPROBE_DEFER, driver_init)
  ∧ (∀ env wdev s, probe_succeeds env = true →
       ∃ s', dell_privacy_wmi_probe env wdev s = Some (0, s') ∧
             dell_privacy_valid true s' = Some (0, s'))
  ∧ (∀ env wdev s,
       probe_reaches_registration env = true → probe_succeeds env = false →
       ∃ r s', dell_privacy_wmi_probe env wdev s = Some (r, s') ∧
               dell_privacy_valid true s' = Some (- ENODEV, s'))
  ∧ (∀ env wdev s, probe_reaches_registration env = false →
       ∃ s', dell_privacy_wmi_probe env wdev s = Some (- ENOMEM, s') ∧
             dell_privacy_valid true s' = Some (privacy_valid s, s'))
  ∧ (∀ wdev s priv d idev,
       drvdata s !! wdev = Some priv → priv ∈ wmi_list s →
       objs s !! priv = Some d → input_dev d = Some idev →
       dev_state idev ≠ InputFreed →
       ∃ s', dell_privacy_wmi_remove wdev s = Some (0, s') ∧
             dell_privacy_valid true s' = Some (- ENODEV, s')).
Proof.
  split; [intros s; apply dell_privacy_valid_run|].
  split; [reflexivity|].
  split; [|split; [|split]].
  - intros [k1 k2 k3 k4 r5 q r7] wdev s.
    unfold probe_succeeds, probe_reaches_registration.
    cbn [kzalloc_ok input_allocate_ok kcalloc_ok keymap_dup_ok
         input_register_ret block_query add_group_ret].
    intros H. split_andb. subst k1 k2 k3 k4.
    match goal with H : (r5 =? 0) = true |- _ => rename H into H5 end.
    match goal with H : (r7 =? 0) = true |- _ => rename H into H7 end.
    match goal with H : (query_ret q =? 0) = true |- _ => rename H into Hq end.
    rewrite probe_run. unfold probe_outcome.
    cbn [kzalloc_ok input_allocate_ok kcalloc_ok keymap_dup_ok
         input_register_ret block_query add_group_ret negb].
    rewrite H5. cbn [negb].
    destruct q as [[n|c|pointer|n]|]; try discriminate Hq.
    simpl in Hq. destruct (bool_decide (length pointer ≠ 8%nat)); [discriminate Hq|].
    rewrite H7. cbn [negb].
    eexists. split; reflexivity.
  - intros [k1 k2 k3 k4 r5 q r7] wdev s.
    unfold probe_succeeds, probe_reaches_registration.
    cbn [kzalloc_ok input_allocate_ok kcalloc_ok keymap_dup_ok
         input_register_ret block_query add_group_ret].
    intros Hreg. rewrite Hreg. split_andb. subst k1 k2 k3 k4.
    intros Hfail. rewrite probe_run. unfold probe_outcome.
    cbn [kzalloc_ok input_allocate_ok kcalloc_ok keymap_dup_ok
         input_register_ret block_query add_group_ret negb].
    destruct (r5 =? 0); cbn [negb]; [|eexists _, _; split; reflexivity].
    destruct q as [[n|c|pointer|n]|]; try (eexists _, _; split; reflexivity).
    simpl in Hfail.
    destruct (bool_decide (length pointer ≠ 8%nat));
      [eexists _, _; split; reflexivity|].
    simpl in Hfail. rewrite Hfail. cbn [negb].
    eexists _, _; split; reflexivity.
  - intros [k1 k2 k3 k4 r5 q r7] wdev s.
    unfold probe_reaches_registration.
    cbn [kzalloc_ok input_allocate_ok kcalloc_ok keymap_dup_ok].
    intros Hreg. rewrite probe_run. unfold probe_outcome.
    cbn [kzalloc_ok input_allocate_ok kcalloc_ok keymap_dup_ok
         input_register_ret block_query add_group_ret].
    destruct k1; cbn [negb]; [|eexists; split; [reflexivity|by destruct s]].
    destruct k2; cbn [negb]; [|eexists; split; reflexivity].
    destruct k3; cbn [negb]; [|eexists; split; reflexivity].
    destruct k4; cbn [negb]; [discriminate Hreg|eexists; split; reflexivity].
  - intros wdev s priv d idev Hdrv Hin Hd Hi Hlive.
    rewrite (remove_total _ _ _ _ _ Hdrv Hin Hd Hi Hlive).
    eexists. split; reflexivity.
Qed.

Lemma dell_privacy_valid_answers_witness :
  dell_privacy_valid false example_probed = Some (- ENODEV, example_probed)
  ∧ (∃ s', dell_privacy_wmi_probe example_env 7 driver_init = Some (0, s') ∧
           dell_privacy_valid true s' = Some (0, s'))
  ∧ (∃ r s', dell_privacy_wmi_probe (ProbeEnv true true true true 0 None 0) 7 driver_init
             = Some (r, s') ∧
             dell_privacy_valid true s' = Some (- ENODEV, s'))
  ∧ (∃ s', dell_privacy_wmi_probe (ProbeEnv false true true true 0 None 0) 7 example_probed
           = Some (- ENOMEM, s') ∧
           dell_privacy_valid true s' = Some (0, s'))
  ∧ (∃ s', dell_privacy_wmi_remove 7 example_probed = Some (0, s') ∧
           dell_privacy_valid true s' = Some (- ENODEV, s')).
Proof.
  destruct dell_privacy_valid_answers as (Habsent & _ & Hok & Hlate & Hearly & Hrem).
  split; [apply Habsent|].
  split; [apply Hok; reflexivity|].
  split; [apply Hlate; reflexivity|].
  split; [apply (Hearly (ProbeEnv false true true true 0 None 0) 7%nat example_probed);
          reflexivity|].
  apply (Hrem 7%nat example_probed 0%nat
           (PrivData (Some (InputDev installed_keymap InputRegistered)) (Some 7%nat) 3 1)
           (InputDev installed_keymap InputRegistered)); try reflexivity.
  - vm_compute. apply elem_of_cons. by left.
  - simpl. discriminate.
Defined.

(** ** Failure paths of the probe (C3) *)

(** C3 does not hold of the code.  When the initial status query fails the
    probe takes its error path but returns 0, and the new instance stays on
    the registration list (with its input device freed); [privacy_valid]
    does end at [-ENODEV].  A failed input-device registration returns 0 as
    well. *)
Theorem probe_failure_returns_zero s wdev :
  (∃ s' d idev,
     dell_privacy_wmi_probe query_fails_env wdev s = Some (0, s') ∧
     wmi_list s' = wmi_list s ++ [length (objs s)] ∧
     objs s' !! length (objs s) = Some d ∧
     input_dev d = Some idev ∧ dev_state idev = InputFreed ∧
     privacy_valid s' = - ENODEV)
  ∧ (∃ s', dell_privacy_wmi_probe register_fails_env wdev s = Some (0, s') ∧
           privacy_valid s' = - ENODEV).
Proof.
  rewrite !probe_run. split.
  - eexists _, _, _. split; [reflexivity|]. simpl.
    rewrite lookup_snoc. done.
  - eexists. split; reflexivity.
Qed.

(** ** The LED callback (C2) *)

(** C2 as stated fails: setting the brightness to 0 evaluates the
    acknowledgment method just as setting it to 1 does. *)
Lemma micmute_led_off_acknowledges :
  dell_privacy_micmute_led_set example_ec 0 = (0, [EvaluateObject 1 acpi_method]) ∧
  (dell_privacy_micmute_led_set example_ec 0).2 ≠ [].
Proof. split; [reflexivity|discriminate]. Qed.

(** C2, amended.  With an embedded-controller handle that exists, exposes
    the acknowledgment method and evaluates it successfully,
    [dell_privacy_micmute_led_set] returns 0 and evaluates the method exactly
    once, whatever brightness it is given: the callback does not look at the
    brightness, so both the "on" and the "off" setting acknowledge. *)
Theorem micmute_led_set_acknowledges ec brightness handle :
  ec_get_handle ec = Some handle →
  acpi_has_method ec = true →
  evaluate_status ec = 0 →
  dell_privacy_micmute_led_set ec brightness = (0, [EvaluateObject handle acpi_method]).
Proof.
  intros Hh Hm Hs. unfold dell_privacy_micmute_led_set, ACPI_FAILURE.
  by rewrite Hh, Hm, Hs.
Qed.

Lemma micmute_led_set_acknowledges_witness :
  dell_privacy_micmute_led_set example_ec 1 = (0, [EvaluateObject 1 acpi_method]).
Proof.
  apply (micmute_led_set_acknowledges example_ec 1 1%nat); reflexivity.
Defined.

(** The callback never depends on the brightness, and an absent handle or
    method is an I/O error without any firmware call. *)
Lemma micmute_led_set_ignores_brightness ec b1 b2 :
  dell_privacy_micmute_led_set ec b1 = dell_privacy_micmute_led_set ec b2.
Proof. reflexivity. Qed.

Lemma micmute_led_set_unreachable ec brightness :
  ec_get_handle ec = None ∨ acpi_has_method ec = false →
  dell_privacy_micmute_led_set ec brightness = (- EIO, []).
Proof.
  unfold dell_privacy_micmute_led_set.
  intros [-> | ->]; [reflexivity|]. by destruct (ec_get_handle ec).
Qed.

(** * Further properties of the WMI side *)

(** ** Well-formedness of the reachable states *)

Lemma driver_init_wf : driver_wf driver_init.
Proof.
  split; simpl.
  - constructor.
  - intros w p H. by rewrite lookup_empty in H.
  - intros p Hp. by apply elem_of_nil in Hp.
Qed.

Lemma wf_list_bound s p : driver_wf s → p ∈ wmi_list s → (p < length (objs s))%nat.
Proof.
  intros Hwf Hp. destruct (wf_listed s Hwf p Hp) as (d & idev & Hd & _).
  eauto using lookup_lt_Some.
Qed.

Lemma probe_preserves_wf env wdev s r s' :
  driver_wf s → dell_privacy_wmi_probe env wdev s = Some (r, s') → driver_wf s'.
Proof.
  intros Hwf. rewrite probe_run. intros [= Hr].
  pose proof (probe_outcome_shape env wdev s) as Hs. simpl in Hs.
  rewrite Hr in Hs. simpl in Hs. clear Hr.
  assert (Hdrv : ∀ d w p,
            <[wdev := length (objs s)]> (drvdata s) !! w = Some p →
            (p < length (objs s ++ [d]))%nat).
  { intros d w p. rewrite length_app. simpl.
    destruct (decide (wdev = w)) as [<-|Hne].
    - rewrite lookup_insert_eq. intros [= <-]. lia.
    - rewrite lookup_insert_ne by done. intros H%(wf_drvdata s Hwf). lia. }
  assert (Hold : ∀ d p, p ∈ wmi_list s →
            ∃ d0 idev, (objs s ++ [d]) !! p = Some d0 ∧ input_dev d0 = Some idev ∧
                       keycode idev = installed_keymap).
  { intros d p Hp. rewrite lookup_snoc_lt by eauto using wf_list_bound.
    by apply (wf_listed s Hwf). }
  destruct Hs as [->|[(valid & d & -> & _)|(valid & d & idev & -> & Hi & Hkm)]].
  - done.
  - split; simpl; [apply (wf_nodup s Hwf)|apply Hdrv|apply Hold].
  - split; simpl; [|apply Hdrv|].
    + apply NoDup_app. split; [apply (wf_nodup s Hwf)|]. split; [|apply NoDup_singleton].
      intros p Hp ->%list_elem_of_singleton.
      pose proof (wf_list_bound s _ Hwf Hp). lia.
    + intros p [Hp| ->%list_elem_of_singleton]%elem_of_app; [by apply Hold|].
      exists d, idev. by rewrite lookup_snoc.
Qed.

Lemma remove_preserves_wf wdev s r s' :
  driver_wf s → dell_privacy_wmi_remove wdev s = Some (r, s') → driver_wf s'.
Proof.
  intros Hwf (priv & d & idev & Hdrv & Hin & Hd & Hi & _ & -> & ->)%remove_run.
  split; simpl.
  - apply NoDup_filter, (wf_nodup s Hwf).
  - intros w p H. rewrite length_insert. by apply (wf_drvdata s Hwf w).
  - intros p [Hne Hp]%list_elem_of_filter.
    rewrite list_lookup_insert_ne by done. by apply (wf_listed s Hwf).
Qed.

Lemma process_event_preserves_wf type code status s r s' :
  driver_wf s → dell_privacy_process_event type code status s = Some (r, s') →
  driver_wf s'.
Proof.
  intros Hwf Hrun.
  destruct (list_first_entry_or_null (wmi_list s)) as [priv|] eqn:Hh.
  - destruct (first_instance s) as [[[p d] idev]|] eqn:Hf.
    + rewrite (process_event_run _ _ _ _ _ _ _ Hf) in Hrun.
      injection Hrun as _ <-.
      apply first_instance_inv in Hf as (Hp & Hd & Hi & Hst).
      unfold relay_outcome.
      destruct (sparse_keymap_entry_from_scancode _ _) as [key|]; [|done].
      destruct (_ || _); [|done].
      split; simpl.
      * apply (wf_nodup s Hwf).
      * intros w q H. rewrite length_insert. by apply (wf_drvdata s Hwf w).
      * intros q Hq. destruct (decide (p = q)) as [<-|Hne].
        -- rewrite list_lookup_insert_eq by eauto using lookup_lt_Some.
           destruct (wf_listed s Hwf p Hq) as (d0 & idev0 & Hd0 & Hi0 & Hk0).
           rewrite Hd in Hd0. injection Hd0 as <-.
           exists (set_last_status d (to_u32 status)), idev0. done.
        -- rewrite list_lookup_insert_ne by done. by apply (wf_listed s Hwf).
    + by rewrite (process_event_fault _ _ _ _ _ Hh Hf) in Hrun.
  - unfold list_first_entry_or_null in Hh. apply head_None in Hh.
    rewrite process_event_empty in Hrun by done. by injection Hrun as _ <-.
Qed.

Lemma run_op_preserves_wf o s s' :
  driver_wf s → run_op o s = Some s' → driver_wf s'.
Proof.
  intros Hwf.
  destruct o as [env wdev|wdev|type code status|g|dev|dev]; simpl;
    intros ([r s0] & Hrun & ->)%fmap_Some; simpl.
  - eauto using probe_preserves_wf.
  - eauto using remove_preserves_wf.
  - eauto using process_event_preserves_wf.
  - rewrite dell_privacy_valid_run in Hrun. by injection Hrun as _ <-.
  - by rewrite (show_state_unchanged dev s r s0) by auto.
  - by rewrite (show_state_unchanged dev s r s0) by auto.
Qed.

Lemma reachable_driver_wf s : reachable s → driver_wf s.
Proof.
  induction 1 as [|o s s' _ IH Hrun].
  - apply driver_init_wf.
  - eauto using run_op_preserves_wf.
Qed.

(** The final state of a probe in which every step succeeds. *)
Lemma probe_succeeds_outcome env wdev s :
  probe_succeeds env = true →
  ∃ pointer,
    block_query env = Some (ACPI_TYPE_BUFFER pointer) ∧ length pointer = 8%nat ∧
    probe_outcome env wdev s =
    (0, Driver 0 (wmi_list s ++ [length (objs s)])
          (objs s ++ [PrivData (Some (InputDev installed_keymap InputRegistered))
                               (Some wdev) (buffer_u32 pointer 0) (buffer_u32 pointer 1)])
          (<[wdev := length (objs s)]> (drvdata s)) (input_log s)).
Proof.
  destruct env as [k1 k2 k3 k4 r5 q r7].
  unfold probe_succeeds, probe_reaches_registration, probe_outcome.
  cbn [kzalloc_ok input_allocate_ok kcalloc_ok keymap_dup_ok
       input_register_ret block_query add_group_ret].
  intros H. split_andb. subst k1 k2 k3 k4.
  match goal with H : (r5 =? 0) = true |- _ => rewrite H end.
  match goal with H : (r7 =? 0) = true |- _ => rewrite H end.
  match goal with H : (query_ret q =? 0) = true |- _ => rename H into Hq end.
  destruct q as [[n|c|pointer|n]|]; try discriminate Hq.
  simpl in Hq. exists pointer.
  case_bool_decide as Hlen; [discriminate Hq|].
  split; [done|]. split; [|done].
  destruct (decide (length pointer = 8%nat)); [done|contradiction].
Qed.

Lemma live_list_bound s p : driver_live s → p ∈ wmi_list s → (p < length (objs s))%nat.
Proof.
  intros Hl Hp. destruct (live_listed s Hl p Hp) as (d & idev & Hd & _).
  eauto using lookup_lt_Some.
Qed.

(** A probe that does not reach [list_add_tail] leaves the list alone and at
    most appends one object. *)
Lemma probe_not_linked env wdev s :
  probe_links env = false →
  wmi_list (probe_outcome env wdev s).2 = wmi_list s ∧
  (objs (probe_outcome env wdev s).2 = objs s ∨
   ∃ d, objs (probe_outcome env wdev s).2 = objs s ++ [d]).
Proof.
  destruct env as [k1 k2 k3 k4 r5 q r7].
  unfold probe_links, probe_reaches_registration, probe_outcome.
  cbn [kzalloc_ok input_allocate_ok kcalloc_ok keymap_dup_ok
       input_register_ret block_query add_group_ret].
  destruct k1; simpl; [|auto].
  destruct k2; simpl; [|eauto].
  destruct k3; simpl; [|eauto].
  destruct k4; simpl; [|eauto].
  destruct (r5 =? 0); simpl; [discriminate|eauto].
Qed.

Lemma probe_links_of_succeeds env :
  probe_succeeds env = true → probe_links env = true.
Proof.
  unfold probe_succeeds, probe_links. intros H. split_andb.
  apply andb_true_iff. done.
Qed.

Lemma probe_preserves_live env wdev s r s' :
  driver_live s → clean_op (OpProbe env wdev) →
  dell_privacy_wmi_probe env wdev s = Some (r, s') → driver_live s'.
Proof.
  intros Hl Hclean. rewrite probe_run. intros [= Hr].
  assert (Hs' : s' = (probe_outcome env wdev s).2) by by rewrite Hr.
  subst s'. clear Hr. simpl in Hclean.
  destruct (probe_links env) eqn:Hlinks.
  - destruct (probe_succeeds_outcome env wdev s (Hclean eq_refl))
      as (pointer & _ & _ & ->).
    split; simpl.
    + apply NoDup_app. split; [apply (live_nodup s Hl)|].
      split; [|apply NoDup_singleton].
      intros p Hp ->%list_elem_of_singleton.
      pose proof (live_list_bound s _ Hl Hp). lia.
    + intros p [Hp| ->%list_elem_of_singleton]%elem_of_app.
      * rewrite lookup_snoc_lt by eauto using live_list_bound.
        by apply (live_listed s Hl).
      * rewrite lookup_snoc. eexists _, _. done.
  - destruct (probe_not_linked env wdev s Hlinks) as [Hlist Hobjs].
    split.
    + rewrite Hlist. apply (live_nodup s Hl).
    + intros p Hp. rewrite Hlist in Hp.
      destruct Hobjs as [-> |[d ->]].
      * by apply (live_listed s Hl).
      * rewrite lookup_snoc_lt by eauto using live_list_bound.
        by apply (live_listed s Hl).
Qed.

Lemma remove_preserves_live wdev s r s' :
  driver_live s → dell_privacy_wmi_remove wdev s = Some (r, s') → driver_live s'.
Proof.
  intros Hl (priv & d & idev & Hdrv & Hin & Hd & Hi & _ & -> & ->)%remove_run.
  split; simpl.
  - apply NoDup_filter, (live_nodup s Hl).
  - intros p [Hne Hp]%list_elem_of_filter.
    rewrite list_lookup_insert_ne by done. by apply (live_listed s Hl).
Qed.

Lemma live_first_instance s priv :
  driver_live s → list_first_entry_or_null (wmi_list s) = Some priv →
  ∃ d idev, first_instance s = Some (priv, d, idev).
Proof.
  intros Hl Hh.
  destruct (live_listed s Hl priv) as (d & idev & Hd & Hi & _ & Hst).
  { by apply head_Some_elem_of. }
  exists d, idev. unfold first_instance. rewrite Hh. simpl.
  rewrite Hd. simpl. rewrite Hi. simpl. by rewrite Hst.
Qed.

Lemma process_event_preserves_live type code status s r s' :
  driver_live s → dell_privacy_process_event type code status s = Some (r, s') →
  driver_live s'.
Proof.
  intros Hl Hrun.
  destruct (list_first_entry_or_null (wmi_list s)) as [priv|] eqn:Hh.
  - destruct (live_first_instance s priv Hl Hh) as (d & idev & Hf).
    rewrite (process_event_run _ _ _ _ _ _ _ Hf) in Hrun.
    injection Hrun as _ <-.
    apply first_instance_inv in Hf as (Hp & Hd & Hi & Hst).
    unfold relay_outcome.
    destruct (sparse_keymap_entry_from_scancode _ _) as [key|]; [|done].
    destruct (_ || _); [|done].
    split; simpl; [apply (live_nodup s Hl)|].
    intros q Hq. destruct (decide (priv = q)) as [<-|Hne].
    + rewrite list_lookup_insert_eq by eauto using lookup_lt_Some.
      destruct (live_listed s Hl priv Hq) as (d0 & idev0 & Hd0 & Hi0 & Hk0 & Hs0).
      rewrite Hd in Hd0. injection Hd0 as <-.
      exists (set_last_status d (to_u32 status)), idev0. done.
    + rewrite list_lookup_insert_ne by done. by apply (live_listed s Hl).
  - unfold list_first_entry_or_null in Hh. apply head_None in Hh.
    rewrite process_event_empty in Hrun by done. by injection Hrun as _ <-.
Qed.

Lemma reachable_clean_reachable s : reachable_clean s → reachable s.
Proof.
  induction 1 as [|o s s' _ IH _ Hrun]; [constructor|].
  by apply (reachable_step o s).
Qed.

(** X1.  In every state reached from module load by probes, removals,
    events, validity queries and attribute reads in which no probe fails
    after it has linked its instance, the registration list holds no
    instance twice and every listed instance is an allocated object whose
    input device is registered (not freed) and carries the remapped keymap;
    as a consequence [dell_privacy_process_event] returns for every
    argument.  A probe that fails after linking breaks this: it leaves a
    listed instance whose input device is freed. *)
Theorem clean_run_instances_live s :
  reachable_clean s →
  driver_live s ∧
  (∀ type code status, is_Some (dell_privacy_process_event type code status s)) ∧
  (∀ wdev, ¬ driver_live (probe_outcome query_fails_env wdev s).2).
Proof.
  intros Hreach.
  assert (Hl : driver_live s).
  { induction Hreach as [|o s s' Hreach IH Hclean Hrun].
    - split; simpl; [constructor|]. intros p Hp. by apply elem_of_nil in Hp.
    - destruct o as [env wdev|wdev|type code status|g|dev|dev]; simpl in Hrun;
        apply fmap_Some in Hrun as ([r s0] & Hrun & ->); simpl.
      + eapply probe_preserves_live; eauto.
      + eapply remove_preserves_live; eauto.
      + eapply process_event_preserves_live; eauto.
      + rewrite dell_privacy_valid_run in Hrun. by injection Hrun as _ <-.
      + by rewrite (show_state_unchanged dev s r s0) by auto.
      + by rewrite (show_state_unchanged dev s r s0) by auto. }
  split; [done|]. split.
  - intros type code status.
    destruct (list_first_entry_or_null (wmi_list s)) as [priv|] eqn:Hh.
    + destruct (live_first_instance s priv Hl Hh) as (d & idev & Hf).
      rewrite (process_event_run _ _ _ _ _ _ _ Hf). eauto.
    + apply head_None in Hh. rewrite process_event_empty by done. eauto.
  - intros wdev [_ Hlisted].
    destruct (Hlisted (length (objs s))) as (d & idev & Hd & Hi & _ & Hst).
    { simpl. apply elem_of_app. right. by apply list_elem_of_singleton. }
    simpl in Hd. rewrite lookup_snoc in Hd. injection Hd as <-.
    simpl in Hi. injection Hi as <-. discriminate Hst.
Qed.

Lemma example_probed_clean : reachable_clean example_probed.
Proof.
  apply (reachable_clean_step (OpProbe example_env 7) driver_init);
    [constructor| |reflexivity].
  intros _. reflexivity.
Defined.

Lemma clean_run_instances_live_witness :
  driver_live example_probed ∧
  is_Some (dell_privacy_process_event 0x0012 1 0 example_probed).
Proof.
  destruct (clean_run_instances_live example_probed example_probed_clean)
    as (Hl & Hev & _).
  split; [exact Hl|apply Hev].
Defined.

(** ** Probe, attributes, events and removal composed *)

Lemma encode_response_length features status :
  length (encode_response features status) = 8%nat.
Proof. reflexivity. Qed.

Lemma filter_ne_fresh (l : list nat) (p : nat) :
  p ∉ l → filter (λ q, q ≠ p) l = l.
Proof.
  induction l as [|x l IH]; [done|].
  intros [Hx Hl]%not_elem_of_cons.
  rewrite filter_cons_True by done. by rewrite IH.
Qed.

Lemma filter_ne_middle (l1 l2 : list nat) (p : nat) :
  NoDup (l1 ++ p :: l2) → filter (λ q, q ≠ p) (l1 ++ p :: l2) = l1 ++ l2.
Proof.
  intros Hnd. apply NoDup_app in Hnd as (_ & Hdis & Hnd2).
  apply NoDup_cons in Hnd2 as [Hp2 _].
  rewrite filter_app, filter_cons_False by (intros H; by apply H).
  rewrite !filter_ne_fresh; [done|done|].
  intros Hp1. apply (Hdis p Hp1). apply elem_of_cons. by left.
Qed.

(** X2.  A probe in which every step succeeds and the firmware answers with
    the response encoding (features, status) returns 0 on any driver state,
    opens the validity gate, appends the new instance to the registration
    list, and afterwards the two attributes of the probed device show the
    hexadecimal text of features and of status. *)
Theorem probe_then_show s wdev features status :
  0 ≤ features < 2 ^ 32 →
  0 ≤ status < 2 ^ 32 →
  ∃ s',
    dell_privacy_wmi_probe (response_env features status) wdev s = Some (0, s') ∧
    privacy_valid s' = 0 ∧
    wmi_list s' = wmi_list s ++ [length (objs s)] ∧
    drvdata s' !! wdev = Some (length (objs s)) ∧
    devices_supported_show wdev s' = Some (sysfs_emit_x features, s') ∧
    current_state_show wdev s' = Some (sysfs_emit_x status, s').
Proof.
  intros Hf Hs.
  destruct (buffer_u32_encode features status Hf Hs) as [E0 E1].
  rewrite probe_run.
  destruct (probe_succeeds_outcome (response_env features status) wdev s eq_refl)
    as (pointer & [= <-] & _ & ->).
  rewrite E0, E1. eexists. split; [reflexivity|].
  unfold devices_supported_show, current_state_show, load, mbind, M_bind,
    dev_get_drvdata, mret, M_ret.
  simpl. rewrite lookup_insert_eq. simpl. rewrite lookup_snoc. done.
Qed.

Lemma probe_then_show_witness :
  ∃ s',
    dell_privacy_wmi_probe (response_env 0x5 0x4) 9 example_probed = Some (0, s') ∧
    (fst <$> devices_supported_show 9 s') = Some (String "5" (String "010" EmptyString)) ∧
    (fst <$> current_state_show 9 s') = Some (String "4" (String "010" EmptyString)).
Proof.
  destruct (probe_then_show example_probed 9 0x5 0x4) as
    (s' & Hrun & _ & _ & _ & Hsup & Hcur); [lia|lia|].
  exists s'. rewrite Hrun, Hsup, Hcur. done.
Defined.

(** X3.  In a reachable state, a fully successful probe of a device followed
    by the removal of that device returns 0 and puts the registration list
    back exactly as it was; the older objects and the input log are
    untouched, the instance's input device ends unregistered, and the
    validity gate is left at [-ENODEV]. *)
Theorem probe_then_remove s wdev env :
  reachable s →
  probe_succeeds env = true →
  ∃ s',
    (dell_privacy_wmi_probe env wdev;; dell_privacy_wmi_remove wdev) s = Some (0, s') ∧
    wmi_list s' = wmi_list s ∧
    privacy_valid s' = - ENODEV ∧
    take (length (objs s)) (objs s') = objs s ∧
    input_log s' = input_log s ∧
    ∃ d idev, objs s' !! length (objs s) = Some d ∧ input_dev d = Some idev ∧
              dev_state idev = InputUnregistered.
Proof.
  intros Hreach Hok.
  pose proof (reachable_driver_wf s Hreach) as Hwf.
  destruct (probe_succeeds_outcome env wdev s Hok) as (pointer & _ & _ & Hout).
  unfold mbind, M_bind. rewrite probe_run, Hout.
  erewrite remove_total; cycle 1.
  - simpl. apply lookup_insert_eq.
  - simpl. apply elem_of_app. right. by apply list_elem_of_singleton.
  - simpl. apply lookup_snoc.
  - reflexivity.
  - simpl. discriminate.
  - eexists. split; [reflexivity|]. simpl.
    rewrite filter_app, filter_ne_fresh.
    2: { intros Hin. pose proof (wf_list_bound s _ Hwf Hin). lia. }
    rewrite filter_cons_False, filter_nil by (intros H; by apply H).
    rewrite app_nil_r, insert_snoc, take_app_length, lookup_snoc.
    repeat split; eauto.
Qed.

Lemma probe_then_remove_witness :
  ∃ s',
    (dell_privacy_wmi_probe example_env 9;; dell_privacy_wmi_remove 9) example_probed
    = Some (0, s') ∧
    wmi_list s' = [0%nat] ∧ privacy_valid s' = - ENODEV.
Proof.
  destruct (probe_then_remove example_probed 9 example_env example_probed_reachable eq_refl)
    as (s' & Hrun & Hl & Hv & _).
  exists s'. rewrite Hl. done.
Defined.

(** X4.  In a reachable state with a usable first instance that is the
    drvdata of device [wdev], an event of the Keymap Table is visible through
    the attributes at once: [current_state] shows the hexadecimal text of the
    relayed status and [devices_supported] still shows the features it showed
    before. *)
Theorem process_event_then_show s wdev priv d idev type code status :
  reachable s →
  first_instance s = Some (priv, d, idev) →
  drvdata s !! wdev = Some priv →
  (type, code) ∈ keymap_pairs →
  ∃ s',
    dell_privacy_process_event type code status s = Some (tt, s') ∧
    current_state_show wdev s' = Some (sysfs_emit_x (to_u32 status), s') ∧
    devices_supported_show wdev s' = Some (sysfs_emit_x (features_present d), s') ∧
    devices_supported_show wdev s = Some (sysfs_emit_x (features_present d), s).
Proof.
  intros Hreach Hf Hdrv Hin.
  pose proof (reachable_inv s Hreach) as [_ _ Hk].
  pose proof (first_instance_inv _ _ _ _ Hf) as (Hh & Hd & Hi & Hst).
  assert (Hkm : keycode idev = installed_keymap).
  { eapply Hk; eauto. apply head_Some_elem_of, Hh. }
  assert (Hlt : (priv < length (objs s))%nat) by eauto using lookup_lt_Some.
  rewrite (process_event_run _ _ _ _ _ _ _ Hf).
  unfold relay_outcome. rewrite Hkm, installed_keymap_lookup.
  eexists. split; [reflexivity|].
  unfold devices_supported_show, current_state_show, load, mbind, M_bind,
    dev_get_drvdata, mret, M_ret.
  rewrite Hdrv, Hd.
  rewrite keymap_pairs_eq in Hin.
  apply elem_of_cons in Hin as [[= -> ->]|Hin];
    [|apply elem_of_cons in Hin as [[= -> ->]|[]%elem_of_nil]];
    simpl; rewrite Hdrv; simpl; rewrite list_lookup_insert_eq by done; done.
Qed.

Lemma process_event_then_show_witness :
  ∃ s',
    dell_privacy_process_event 0x0012 2 0x3 example_probed = Some (tt, s') ∧
    (fst <$> current_state_show 7 s') = Some (String "3" (String "010" EmptyString)) ∧
    (fst <$> devices_supported_show 7 s') = Some (String "3" (String "010" EmptyString)).
Proof.
  destruct (process_event_then_show example_probed 7 0
              (PrivData (Some (InputDev installed_keymap InputRegistered)) (Some 7%nat) 3 1)
              (InputDev installed_keymap InputRegistered) 0x0012 2 0x3
              example_probed_reachable eq_refl eq_refl) as (s' & Hrun & Hcur & Hsup & _).
  { vm_compute. apply elem_of_cons. right. apply elem_of_cons. by left. }
  exists s'. rewrite Hrun, Hcur, Hsup. done.
Defined.

(** ** The relay over all [int] arguments *)

(** For any [int] type, the scancode built with a code below 2^16 keeps the
    low 16 bits of the type only. *)
Lemma scancode_low type code :
  0 ≤ code < 2 ^ 16 → scancode type code = (type mod 2 ^ 16) * 2 ^ 16 + code.
Proof.
  intros Hc. unfold scancode, to_int, to_u32.
  rewrite Z.shiftl_mul_pow2 by lia.
  set (x := type * 2 ^ 16).
  rewrite (Z.mod_eq (x + 2 ^ 31) (2 ^ 32)) by lia.
  set (q := (x + 2 ^ 31) / 2 ^ 32).
  replace (x + 2 ^ 31 - 2 ^ 32 * q - 2 ^ 31) with ((type - 2 ^ 16 * q) * 2 ^ 16)
    by (unfold x; lia).
  rewrite lor_shifted by lia.
  pose proof (Z.div_mod type (2 ^ 16)) as Hdm.
  pose proof (Z.mod_pos_bound type (2 ^ 16)) as Hb.
  set (t := type mod 2 ^ 16) in *. set (h := type / 2 ^ 16) in *.
  replace ((type - 2 ^ 16 * q) * 2 ^ 16 + code)
    with (t * 2 ^ 16 + code + (h - q) * 2 ^ 32) by lia.
  rewrite Z.mod_add by lia.
  apply Z.mod_small. lia.
Qed.

(** X5.  Over all integer arguments, in a reachable state with a usable
    first instance: the event is relayed (status stored in the first
    instance, exactly one report logged) when the low 16 bits of the type are
    0x0012 and the code is 1 or 2, and in every other case the call returns
    with the state unchanged.  The upper bits of the type are therefore
    ignored, while the code is compared as a whole. *)
Theorem process_event_relayed_iff s priv d idev type code status :
  reachable s →
  first_instance s = Some (priv, d, idev) →
  (type mod 2 ^ 16 = 0x0012 → code = 1 ∨ code = 2 →
   ∃ key,
     dell_privacy_process_event type code status s
     = Some (tt, with_log (input_log s ++ [ReportEntry priv key 1 true])
                   (with_objs (<[priv := set_last_status d (to_u32 status)]> (objs s)) s)))
  ∧
  (¬ (type mod 2 ^ 16 = 0x0012 ∧ (code = 1 ∨ code = 2)) →
   dell_privacy_process_event type code status s = Some (tt, s)).
Proof.
  intros Hreach Hf.
  pose proof (reachable_inv s Hreach) as [_ _ Hk].
  pose proof (first_instance_inv _ _ _ _ Hf) as (Hh & Hd & Hi & Hst).
  assert (Hkm : keycode idev = installed_keymap).
  { eapply Hk; eauto. apply head_Some_elem_of, Hh. }
  rewrite (process_event_run _ _ _ _ _ _ _ Hf).
  unfold relay_outcome. rewrite Hkm, installed_keymap_lookup.
  unfold DELL_PRIVACY_TYPE_AUDIO, DELL_PRIVACY_TYPE_CAMERA.
  split.
  - intros Ht [-> | ->]; rewrite scancode_low, Ht by lia; simpl; eauto.
  - intros Hnot.
    destruct (Z.eqb_spec code 1) as [-> |H1]; simpl.
    { rewrite scancode_low by lia.
      destruct (Z.eqb_spec (type mod 2 ^ 16 * 2 ^ 16 + 1) 0x120001) as [E|E].
      - exfalso. apply Hnot. split; [lia|auto].
      - destruct (Z.eqb_spec (type mod 2 ^ 16 * 2 ^ 16 + 1) 0x120002); [lia|done]. }
    destruct (Z.eqb_spec code 2) as [-> |H2]; simpl.
    { rewrite scancode_low by lia.
      destruct (Z.eqb_spec (type mod 2 ^ 16 * 2 ^ 16 + 2) 0x120001) as [E|E]; [lia|].
      destruct (Z.eqb_spec (type mod 2 ^ 16 * 2 ^ 16 + 2) 0x120002) as [E2|E2]; [|done].
      exfalso. apply Hnot. split; [lia|auto]. }
    by repeat destruct (_ =? _).
Qed.

Lemma process_event_relayed_iff_witness :
  (∃ s', dell_privacy_process_event (- 65518) 2 7 example_probed = Some (tt, s') ∧
         last_status <$> objs s' !! 0%nat = Some 7)
  ∧ dell_privacy_process_event 0x0012 0x10001 7 example_probed = Some (tt, example_probed).
Proof.
  destruct (process_event_relayed_iff example_probed 0
              (PrivData (Some (InputDev installed_keymap InputRegistered)) (Some 7%nat) 3 1)
              (InputDev installed_keymap InputRegistered) (- 65518) 2 7
              example_probed_reachable eq_refl) as [Hrel _].
  destruct (process_event_relayed_iff example_probed 0
              (PrivData (Some (InputDev installed_keymap InputRegistered)) (Some 7%nat) 3 1)
              (InputDev installed_keymap InputRegistered) 0x0012 0x10001 7
              example_probed_reachable eq_refl) as [_ Hdrop].
  split.
  - destruct Hrel as [key Hrun]; [reflexivity|by right|].
    eexists. split; [exact Hrun|reflexivity].
  - apply Hdrop. intros [_ [H|H]]; discriminate H.
Defined.

(** ** Removal *)

(** X6.  In a reachable state, take a device whose instance is on the
    registration list.  If the instance's input device has not been freed,
    removing the device returns 0 and unlinks exactly that instance, keeping
    the others in their order; the input device becomes unregistered, no
    other object, drvdata entry or logged report changes, and
    [privacy_valid] becomes [-ENODEV] even when other instances remain
    registered.  If the input device was freed (by the error path of the
    instance's probe), the removal calls [input_unregister_device] on the
    freed device: a fault. *)
Theorem remove_unlinks s wdev priv l1 l2 :
  reachable s →
  drvdata s !! wdev = Some priv →
  wmi_list s = l1 ++ priv :: l2 →
  ∃ d idev,
    objs s !! priv = Some d ∧ input_dev d = Some idev ∧
    (dev_state idev ≠ InputFreed →
     ∃ s',
       dell_privacy_wmi_remove wdev s = Some (0, s') ∧
       wmi_list s' = l1 ++ l2 ∧
       privacy_valid s' = - ENODEV ∧
       drvdata s' = drvdata s ∧
       input_log s' = input_log s ∧
       (∀ q, q ≠ priv → objs s' !! q = objs s !! q) ∧
       objs s' !! priv
       = Some (set_input_dev d (Some (set_dev_state InputUnregistered idev)))) ∧
    (dev_state idev = InputFreed → dell_privacy_wmi_remove wdev s = None).
Proof.
  intros Hreach Hdrv Hl.
  pose proof (reachable_driver_wf s Hreach) as Hwf.
  assert (Hin : priv ∈ wmi_list s).
  { rewrite Hl. apply elem_of_app. right. apply elem_of_cons. by left. }
  destruct (wf_listed s Hwf priv Hin) as (d & idev & Hd & Hi & _).
  exists d, idev. split; [done|]. split; [done|]. split.
  - intros Hlive. exists (remove_outcome s priv d idev).
    split; [by apply remove_total|]. simpl.
    split.
    { rewrite Hl. apply filter_ne_middle. rewrite <- Hl. apply (wf_nodup s Hwf). }
    repeat split; try done.
    + intros q Hq. by rewrite list_lookup_insert_ne.
    + by rewrite list_lookup_insert_eq by eauto using lookup_lt_Some.
  - intros Hfreed. by apply (remove_freed wdev s priv d idev).
Qed.

Lemma example_zombie_reachable : reachable example_zombie.
Proof.
  apply (reachable_step (OpProbe query_fails_env 7) driver_init); [constructor|].
  reflexivity.
Defined.

Lemma remove_unlinks_witness :
  (∃ s', dell_privacy_wmi_remove 7 example_probed = Some (0, s') ∧
         wmi_list s' = [] ∧ privacy_valid s' = - ENODEV)
  ∧ dell_privacy_wmi_remove 7 example_zombie = None.
Proof.
  split.
  - destruct (remove_unlinks example_probed 7 0 [] [] example_probed_reachable
                eq_refl eq_refl) as (d & idev & Hd & Hi & Hlive & _).
    injection Hd as <-. injection Hi as <-.
    destruct Hlive as (s' & Hrun & Hl & Hv & _); [simpl; discriminate|].
    exists s'. done.
  - destruct (remove_unlinks example_zombie 7 0 [] [] example_zombie_reachable
                eq_refl eq_refl) as (d & idev & Hd & Hi & _ & Hfreed).
    injection Hd as <-. injection Hi as <-.
    apply Hfreed. reflexivity.
Defined.

(** ** Consequences of the probe's error paths *)

(** X7.  In a reachable state, a probe whose [input_register_device] fails
    returns 0 without linking the new instance, so the removal of that
    device then unlinks a list node that was never linked: in the model the
    removal faults. *)
Theorem remove_after_failed_registration s wdev :
  reachable s →
  (∃ s', dell_privacy_wmi_probe register_fails_env wdev s = Some (0, s') ∧
         wmi_list s' = wmi_list s ∧
         drvdata s' !! wdev = Some (length (objs s)))
  ∧ (dell_privacy_wmi_probe register_fails_env wdev;; dell_privacy_wmi_remove wdev) s
    = None.
Proof.
  intros Hreach. pose proof (reachable_driver_wf s Hreach) as Hwf.
  unfold mbind, M_bind. rewrite probe_run.
  split.
  - eexists. split; [reflexivity|]. simpl. split; [done|]. apply lookup_insert_eq.
  - destruct s as [v wl o dd lg]. simpl.
    unfold dell_privacy_wmi_remove, list_del. run_prims.
    rewrite lookup_insert_eq.
    rewrite bool_decide_eq_false_2; [done|].
    intros Hin. pose proof (wf_list_bound _ _ Hwf Hin) as Hlt. simpl in Hlt. lia.
Qed.

Lemma remove_after_failed_registration_witness :
  (dell_privacy_wmi_probe register_fails_env 9;; dell_privacy_wmi_remove 9) example_probed
  = None.
Proof.
  apply (remove_after_failed_registration example_probed 9 example_probed_reachable).
Defined.

(** X8.  When no instance is registered and a probe fails in its status
    query, the instance it leaves on the list is the first one and its input
    device has been freed: the next event, whatever its arguments,
    dereferences that freed device (a fault in the model). *)
Theorem process_event_after_failed_probe s wdev type code status :
  wmi_list s = [] →
  (dell_privacy_wmi_probe query_fails_env wdev;;
   dell_privacy_process_event type code status) s = None.
Proof.
  intros Hnil. unfold mbind, M_bind. rewrite probe_run.
  apply (process_event_fault _ _ _ _ (length (objs s))).
  - simpl. by rewrite Hnil.
  - unfold first_instance. simpl. rewrite Hnil. simpl.
    by rewrite lookup_snoc.
Qed.

Lemma process_event_after_failed_probe_witness :
  (dell_privacy_wmi_probe query_fails_env 7;;
   dell_privacy_process_event 0x0012 1 0) driver_init = None.
Proof.
  apply (process_event_after_failed_probe driver_init 7 0x0012 1 0). reflexivity.
Defined.

(** ** Frame conditions of the status query and of the probe *)

(** X9.  Whenever the device's drvdata, if set, points to an allocated
    object, [get_current_status] returns, and its result is 0, [-EIO] or
    [-EINVAL]; it is 0 exactly for an 8-byte buffer with the drvdata set.  It
    never touches the registration list, the drvdata table, the input log or
    any object but the device's own, and changes no object at all on an
    error.  With the drvdata set the result is also left in [privacy_valid];
    with the drvdata unset it returns [-EINVAL] and changes nothing, not even
    [privacy_valid]. *)
Theorem get_current_status_frame obj_present wdev s :
  (∀ p, drvdata s !! wdev = Some p → (p < length (objs s))%nat) →
  ∃ r s',
    get_current_status obj_present wdev s = Some (r, s') ∧
    (r = 0 ∨ r = - EIO ∨ r = - EINVAL) ∧
    (r = 0 ↔ is_Some (drvdata s !! wdev) ∧
             ∃ pointer, obj_present = Some (ACPI_TYPE_BUFFER pointer) ∧
                        length pointer = 8%nat) ∧
    wmi_list s' = wmi_list s ∧ drvdata s' = drvdata s ∧ input_log s' = input_log s ∧
    length (objs s') = length (objs s) ∧
    (∀ q, drvdata s !! wdev ≠ Some q → objs s' !! q = objs s !! q) ∧
    (r ≠ 0 → objs s' = objs s) ∧
    (is_Some (drvdata s !! wdev) → privacy_valid s' = r) ∧
    (drvdata s !! wdev = None → r = - EINVAL ∧ s' = s).
Proof.
  intros Hb. rewrite get_current_status_run.
  assert (Hio : - EIO = 0 → False) by (unfold EIO; lia).
  assert (Hinv : - EINVAL = 0 → False) by (unfold EINVAL; lia).
  destruct (drvdata s !! wdev) as [priv|] eqn:Hdrv.
  2: { eexists _, _. split; [reflexivity|].
       split; [auto|]. split; [split; [intros []%Hinv|intros [[? [=]] _]]|].
       repeat split; auto; intros [? [=]]. }
  assert (Hlt : (priv < length (objs s))%nat) by auto.
  assert (Hsome : is_Some (Some priv)) by eauto.
  destruct obj_present as [[n|c|pointer|n]|].
  1,2,4,5: eexists _, _; split; [reflexivity|]; simpl;
    (split; [auto|]); (split; [split; [intros []%Hio|intros (_ & ? & [=] & _)]|]);
    repeat split; auto; done.
  case_bool_decide as Hlen.
  - eexists _, _. split; [reflexivity|]. simpl.
    split; [auto|].
    split; [split; [intros []%Hinv|intros (_ & ? & [= <-] & ?); done]|].
    repeat split; auto; done.
  - destruct (lookup_lt_is_Some_2 (objs s) priv Hlt) as [d Hd]. rewrite Hd.
    eexists _, _. split; [reflexivity|]. simpl.
    split; [auto|].
    split.
    { split; [|done]. intros _. split; [done|]. exists pointer. split; [done|].
      destruct (decide (length pointer = 8%nat)); [done|contradiction]. }
    split; [done|]. split; [done|]. split; [done|].
    split; [apply length_insert|].
    split.
    { intros q Hq. rewrite list_lookup_insert_ne; [done|]. congruence. }
    split; [done|]. split; [done|]. intros [=].
Qed.

Lemma get_current_status_frame_witness :
  ∃ r s', get_current_status None 3 example_probed = Some (r, s') ∧
          r = - EINVAL ∧ s' = example_probed.
Proof.
  destruct (get_current_status_frame None 3 example_probed) as
    (r & s' & Hrun & _ & _ & _ & _ & _ & _ & _ & _ & _ & Hunset).
  { intros p H. vm_compute in H. discriminate H. }
  exists r, s'. split; [exact Hrun|]. by apply Hunset.
Defined.

Ltac probe_frame_close Hgrow Hnv :=
  repeat split; auto; try discriminate;
  try (intros [Hx _]; by apply Hgrow in Hx);
  try (intros [_ Hx]; by apply Hnv in Hx).

(** X10.  A probe never faults.  It returns 0, [-ENOMEM] or the error of
    [devm_device_add_group]; it leaves every older object, the input log and
    the drvdata of every other device as they were; it adds at most the new
    instance, at the tail of the registration list; and [privacy_valid] ends
    at its old value, 0 or [-ENODEV] (the [-EIO] and [-EINVAL] recorded by a
    failed status query never survive the probe).  The probe succeeded in
    every step exactly when it linked the new instance and left
    [privacy_valid] at 0, which the return value alone does not tell. *)
Theorem probe_frame env wdev s :
  ∃ r s',
    dell_privacy_wmi_probe env wdev s = Some (r, s') ∧
    (r = 0 ∨ r = - ENOMEM ∨ r = add_group_ret env) ∧
    take (length (objs s)) (objs s') = objs s ∧
    input_log s' = input_log s ∧
    (∀ w, w ≠ wdev → drvdata s' !! w = drvdata s !! w) ∧
    (wmi_list s' = wmi_list s ∨ wmi_list s' = wmi_list s ++ [length (objs s)]) ∧
    (privacy_valid s' = privacy_valid s ∨ privacy_valid s' = 0 ∨
     privacy_valid s' = - ENODEV) ∧
    (probe_succeeds env = true ↔
     wmi_list s' = wmi_list s ++ [length (objs s)] ∧ privacy_valid s' = 0).
Proof.
  rewrite probe_run.
  exists (probe_outcome env wdev s).1, (probe_outcome env wdev s).2.
  split; [by destruct (probe_outcome env wdev s)|].
  assert (Hgrow : ∀ l : list nat, l = l ++ [length (objs s)] → False).
  { intros l Hl. apply (f_equal length) in Hl. rewrite length_app in Hl.
    simpl in Hl. lia. }
  assert (Hnv : - ENODEV = 0 → False) by (unfold ENODEV; lia).
  destruct env as [k1 k2 k3 k4 r5 q r7].
  unfold probe_outcome, probe_succeeds, probe_reaches_registration.
  cbn [kzalloc_ok input_allocate_ok kcalloc_ok keymap_dup_ok
       input_register_ret block_query add_group_ret].
  destruct k1; cbn [negb andb].
  2: { simpl. rewrite firstn_all. probe_frame_close Hgrow Hnv. }
  assert (Hd : ∀ w, w ≠ wdev →
            <[wdev := length (objs s)]> (drvdata s) !! w = drvdata s !! w).
  { intros w Hw. by rewrite lookup_insert_ne. }
  destruct k2; cbn [negb andb].
  2: { simpl. rewrite take_app_length. probe_frame_close Hgrow Hnv. }
  destruct k3; cbn [negb andb].
  2: { simpl. rewrite take_app_length. probe_frame_close Hgrow Hnv. }
  destruct k4; cbn [negb andb].
  2: { simpl. rewrite take_app_length. probe_frame_close Hgrow Hnv. }
  destruct (r5 =? 0); cbn [negb andb].
  2: { simpl. rewrite take_app_length. probe_frame_close Hgrow Hnv. }
  destruct q as [[n|c|pointer|n]|]; simpl.
  1,2,4,5: rewrite take_app_length; probe_frame_close Hgrow Hnv.
  case_bool_decide as Hlen; simpl.
  { rewrite take_app_length. probe_frame_close Hgrow Hnv. }
  destruct (r7 =? 0); simpl; rewrite take_app_length; probe_frame_close Hgrow Hnv.
Qed.

(** ** The attributes in reachable states *)

(** X11.  In a reachable state both attributes of any device whose drvdata
    is set can be read: they return the hexadecimal text of the instance's
    [features_present] and [last_status], followed by a newline, and leave
    the driver state unchanged. *)
Theorem show_attributes_reachable s dev priv :
  reachable s →
  drvdata s !! dev = Some priv →
  ∃ d,
    objs s !! priv = Some d ∧
    devices_supported_show dev s = Some (sysfs_emit_x (features_present d), s) ∧
    current_state_show dev s = Some (sysfs_emit_x (last_status d), s).
Proof.
  intros Hreach Hdrv.
  pose proof (wf_drvdata s (reachable_driver_wf s Hreach) dev priv Hdrv) as Hlt.
  destruct (lookup_lt_is_Some_2 (objs s) priv Hlt) as [d Hd].
  exists d. split; [done|].
  unfold devices_supported_show, current_state_show, load, mbind, M_bind,
    dev_get_drvdata, mret, M_ret.
  by rewrite Hdrv, Hd.
Qed.

Lemma show_attributes_reachable_witness :
  (fst <$> devices_supported_show 7 example_removed)
  = Some (String "3" (String "010" EmptyString))
  ∧ (snd <$> current_state_show 7 example_removed) = Some example_removed.
Proof.
  destruct (show_attributes_reachable example_removed 7 0 example_removed_reachable eq_refl)
    as (d & Hd & Hsup & Hcur).
  injection Hd as <-. rewrite Hsup, Hcur. done.
Defined.

(** ** The remap loop and the namespace prefix *)

Lemma remap_loop_spec src pre z :
  remap_loop src (length pre) (pre ++ replicate (length src + 1) z)
  = pre ++ (remap_entry <$> src) ++ [z].
Proof.
  revert pre. induction src as [|e rest IH]; intros pre; [done|].
  cbn [remap_loop length Nat.add replicate].
  rewrite insert_app_r_alt, Nat.sub_diag by lia. cbn [insert list_insert].
  specialize (IH (pre ++ [remap_entry e])).
  rewrite length_app, Nat.add_1_r, <- app_assoc in IH. cbn [app] in IH.
  rewrite IH, fmap_cons, <- app_assoc. done.
Qed.

Lemma remapped_keymap_eq src :
  remapped_keymap src = (remap_entry <$> src) ++ [zeroed_key_entry].
Proof. apply (remap_loop_spec src []). Qed.

Lemma lookup_keymap_size km sc :
  sparse_keymap_entry_from_scancode (take (keymap_size km) km) sc
  = sparse_keymap_entry_from_scancode km sc.
Proof.
  induction km as [|e km IH]; [done|].
  cbn [keymap_size]. destruct e as [[] c k]; cbn; rewrite ?IH; done.
Qed.

Lemma lookup_keymap_end km sc :
  sparse_keymap_entry_from_scancode (km ++ [zeroed_key_entry]) sc
  = sparse_keymap_entry_from_scancode km sc.
Proof.
  induction km as [|e km IH]; [done|].
  destruct e as [[] c k]; cbn; rewrite ?IH; done.
Qed.

Lemma remap_entry_code e :
  0 ≤ ke_code e < 2 ^ 16 → ke_code (remap_entry e) = 0x0012 * 2 ^ 16 + ke_code e.
Proof.
  intros Hc. unfold remap_entry. cbn [ke_code].
  rewrite Z.shiftl_mul_pow2, Z.lor_comm, lor_shifted by lia.
  apply to_u32_small. lia.
Qed.

(** X12.  Whatever source table the probe remaps (with 16-bit codes), the
    keymap it installs answers the scancode [0x0012:c] with the source
    table's entry for code [c], its code prefixed by the type, and answers
    no scancode of any other 16-bit type: the prefix keeps the table's codes
    apart from those of other event types.  The keymap installed by the
    driver is the instance at [dell_wmi_keymap_type_0012]. *)
Theorem installed_keymap_lookup_prefix src type c :
  (∀ e, e ∈ src → 0 ≤ ke_code e < 2 ^ 16) →
  0 ≤ type < 2 ^ 16 →
  0 ≤ c < 2 ^ 16 →
  sparse_keymap_entry_from_scancode (installed_keymap_of src) (scancode type c)
  = (if type =? 0x0012
     then remap_entry <$> sparse_keymap_entry_from_scancode src c
     else None)
  ∧ installed_keymap = installed_keymap_of dell_wmi_keymap_type_0012.
Proof.
  intros Hsrc Ht Hc. split; [|reflexivity].
  unfold installed_keymap_of.
  rewrite lookup_keymap_size, remapped_keymap_eq, lookup_keymap_end.
  rewrite scancode_u16 by done.
  induction src as [|e rest IH]; [by destruct (type =? 0x0012)|].
  assert (He : 0 ≤ ke_code e < 2 ^ 16) by (apply Hsrc, elem_of_cons; by left).
  assert (Hrest : ∀ e0, e0 ∈ rest → 0 ≤ ke_code e0 < 2 ^ 16).
  { intros e0 H0. apply Hsrc, elem_of_cons. by right. }
  specialize (IH Hrest).
  rewrite fmap_cons. cbn [sparse_keymap_entry_from_scancode].
  replace (ke_type (remap_entry e)) with (ke_type e) by done.
  rewrite remap_entry_code by done.
  destruct (Z.eqb_spec type 0x0012) as [-> |Hne].
  - destruct (ke_type e); [done| | | |];
      (destruct (Z.eqb_spec c (ke_code e)) as [-> |Hce];
       [by rewrite Z.eqb_refl
       |destruct (Z.eqb_spec (18 * 2 ^ 16 + c) (18 * 2 ^ 16 + ke_code e)); [lia|done]]).
  - destruct (ke_type e); [done| | | |];
      (destruct (Z.eqb_spec (type * 2 ^ 16 + c) (18 * 2 ^ 16 + ke_code e)); [lia|done]).
Qed.

Lemma installed_keymap_lookup_prefix_witness :
  sparse_keymap_entry_from_scancode installed_keymap (scancode 0x0012 2)
  = Some (KeyEntry KE_SW 0x120002 SW_CAMERA_LENS_COVER)
  ∧ sparse_keymap_entry_from_scancode installed_keymap (scancode 0x0011 2) = None.
Proof.
  assert (Hsrc : ∀ e, e ∈ dell_wmi_keymap_type_0012 → 0 ≤ ke_code e < 2 ^ 16).
  { intros e He. vm_compute in He.
    repeat (apply elem_of_cons in He as [-> |He]; [vm_compute; split; congruence|]).
    by apply elem_of_nil in He. }
  destruct (installed_keymap_lookup_prefix dell_wmi_keymap_type_0012 0x0012 2 Hsrc)
    as [H12 Heq]; [lia|lia|].
  destruct (installed_keymap_lookup_prefix dell_wmi_keymap_type_0012 0x0011 2 Hsrc)
    as [H11 _]; [lia|lia|].
  rewrite Heq, H12, H11. done.
Defined.

(** ** The LED callback in full *)

Ltac led_close Hio :=
  repeat split; eauto;
  try solve
    [ done
    | intros Hx; exfalso; apply Hio; exact Hx
    | intros Hx; exfalso; by apply Hx
    | intros [[? [=]] _]
    | intros (_ & [=] & _)
    | intros [_ [=]]
    | intros (_ & _ & Hz); contradiction ].

(** X13.  [dell_privacy_micmute_led_set] returns 0 or [-EIO] and nothing
    else; it evaluates a control method at most once, always [ECAK] on the
    embedded controller's handle, and does so exactly when the handle exists
    and has the method; it returns 0 exactly when, in addition, the
    evaluation succeeds.  None of this depends on the brightness. *)
Theorem micmute_led_set_outcomes ec brightness :
  let r := dell_privacy_micmute_led_set ec brightness in
  (r.1 = 0 ∨ r.1 = - EIO) ∧
  (r.2 = [] ∨ ∃ handle, ec_get_handle ec = Some handle ∧
                         r.2 = [EvaluateObject handle acpi_method]) ∧
  (r.2 ≠ [] ↔ is_Some (ec_get_handle ec) ∧ acpi_has_method ec = true) ∧
  (r.1 = 0 ↔ is_Some (ec_get_handle ec) ∧ acpi_has_method ec = true ∧
             evaluate_status ec = 0).
Proof.
  assert (Hio : - EIO = 0 → False) by (unfold EIO; lia).
  destruct ec as [[handle|] m st]; unfold dell_privacy_micmute_led_set, ACPI_FAILURE;
    cbn [ec_get_handle acpi_has_method evaluate_status].
  2: { simpl. led_close Hio. }
  destruct m; cbn [negb].
  2: { simpl. led_close Hio. }
  destruct (Z.eqb_spec st 0) as [-> |Hst]; simpl; led_close Hio.
Qed.

(** * Module load and unload, and the ACPI platform driver *)

Ltac run_ms :=
  cbv beta iota delta
    [mbind MS_bind mret MS_ret ms_fault get_module
     set_wmi_driver_registered set_privacy_acpi set_platform_drv_registered
     set_platform_device_registered set_led_registered platform_set_drvdata
     load_acpi store_acpi kfree_privacy_acpi
     wmi_driver_registered privacy_acpi platform_drv_registered
     platform_device_registered platform_drvdata led_registered
     init_has_guid wmi_driver_register_ret init_kzalloc_ok
     platform_driver_register_ret platform_device_register_simple
     ledtrig_audio_get led_classdev_register_ret
     acpi_dev acpi_platform_device acpi_cdev negb andb].

(** [dell_privacy_acpi_init] at module load, in closed form. *)
Lemma dell_privacy_acpi_init_run env w :
  dell_privacy_acpi_init env (ModuleState w NullPtr false None [] false) =
  Some
    (if negb (init_has_guid env) then
       (- ENODEV, ModuleState w NullPtr false None [] false)
     else if negb (init_kzalloc_ok env) then
       (- ENOMEM, ModuleState w NullPtr false None [] false)
     else if negb (platform_driver_register_ret env =? 0) then
       (platform_driver_register_ret env, ModuleState w FreedPtr false None [] false)
     else
       match platform_device_register_simple env with
       | PdevErr err => (err, ModuleState w FreedPtr true None [] false)
       | PdevOk pdev =>
           (0, ModuleState w (LivePtr zeroed_privacy_acpi) true (Some pdev) [] false)
       end).
Proof.
  destruct env as [g r1 k r2 pd]. unfold dell_privacy_acpi_init. run_ms.
  destruct g; [|reflexivity]. destruct k; [|reflexivity].
  destruct (r2 =? 0); [|reflexivity]. destruct pd; reflexivity.
Qed.



(** X15.  At module load [init_dell_privacy] returns 0 exactly when the GUID
    is present and the WMI driver, the platform driver and the platform
    device are all registered and [privacy_acpi] is allocated; these are then
    all in place.  Whenever it fails, the WMI driver is not left registered,
    [privacy_acpi] is not left allocated and no platform device is
    registered. *)
Theorem init_dell_privacy_outcomes env :
  pdev_error_nonzero env →
  ∃ r s',
    init_dell_privacy env module_load = Some (r, s') ∧
    (r = 0 ↔ init_has_guid env = true ∧ init_succeeds env = true) ∧
    (r = 0 →
     ∃ pdev, platform_device_register_simple env = PdevOk pdev ∧
             s' = ModuleState true (LivePtr zeroed_privacy_acpi) true (Some pdev) [] false) ∧
    (r ≠ 0 →
     wmi_driver_registered s' = false ∧
     (∀ a, privacy_acpi s' ≠ LivePtr a) ∧
     platform_device_registered s' = None).
Proof.
  intros Herr.
  assert (Hnd : - ENODEV = 0 → False) by (unfold ENODEV; lia).
  assert (Hnm : - ENOMEM = 0 → False) by (unfold ENOMEM; lia).
  unfold init_dell_privacy, init_succeeds, acpi_init_succeeds.
  destruct (init_has_guid env) eqn:Hg; cbn [negb andb].
  2: { eexists _, _. split; [reflexivity|].
       split; [split; [intros []%Hnd|intros [[=] _]]|].
       split; [intros []%Hnd|]. done. }
  destruct (Z.eqb_spec (wmi_driver_register_ret env) 0) as [Hr1|Hr1]; cbn [negb andb].
  2: { eexists _, _. split; [reflexivity|].
       split; [split; [done|intros [_ [=]]]|].
       split; [done|]. done. }
  unfold mbind, MS_bind, set_wmi_driver_registered, module_load. simpl.
  rewrite dell_privacy_acpi_init_run, Hg. cbn [negb].
  destruct env as [g r1 k r2 pd]. unfold pdev_error_nonzero in Herr.
  cbn [init_has_guid init_kzalloc_ok platform_driver_register_ret
       platform_device_register_simple] in *.
  destruct k; cbn [negb andb].
  2: { eexists _, _. split; [reflexivity|]. simpl.
       split; [split; [intros []%Hnm|intros [_ [=]]]|].
       split; [intros []%Hnm|]. done. }
  destruct (Z.eqb_spec r2 0) as [-> |Hr2]; cbn [negb andb].
  2: { destruct (Z.eqb_spec r2 0); [done|].
       eexists _, _. split; [reflexivity|]. simpl.
       split; [split; [done|intros [_ [=]]]|].
       split; [done|]. done. }
  destruct pd as [pdev|err].
  - eexists _, _. split; [reflexivity|]. simpl.
    split; [done|]. split; [eauto|]. done.
  - pose proof (Herr err eq_refl) as Hne.
    destruct (Z.eqb_spec err 0); [done|].
    eexists _, _. split; [reflexivity|]. simpl.
    split; [split; [done|intros [_ [=]]]|].
    split; [done|]. done.
Qed.

Lemma init_dell_privacy_outcomes_witness :
  ∃ r s', init_dell_privacy example_pdev_fails_env module_load = Some (r, s') ∧
          r = - ENOMEM ∧ wmi_driver_registered s' = false.
Proof.
  destruct (init_dell_privacy_outcomes example_pdev_fails_env) as
    (r & s' & Hrun & _ & _ & _).
  { intros err [= <-]. vm_compute. discriminate. }
  exists r, s'. split; [exact Hrun|].
  vm_compute in Hrun. injection Hrun as <- <-. done.
Defined.

(** X16.  With a live [privacy_acpi], [dell_privacy_acpi_probe] returns 0
    when the LED class device registers and [-EIO] for any registration
    error, whatever its code.  On both paths it makes the device's drvdata
    and [privacy_acpi->dev] point at the device and leaves the LED configured
    with the name [dell-privacy::micmute], maximum brightness 1, the mic-mute
    callback, the [audio-micmute] trigger and the trigger's current state as
    brightness; it touches no driver or device registration.  When
    [privacy_acpi] is NULL or freed the probe dereferences it (a fault in the
    model). *)
Theorem dell_privacy_acpi_probe_outcomes env pdev s :
  (∀ a, privacy_acpi s = LivePtr a →
   ∃ r s',
     dell_privacy_acpi_probe env pdev s = Some (r, s') ∧
     (r = 0 ∨ r = - EIO) ∧
     (r = 0 ↔ led_classdev_register_ret env = 0) ∧
     privacy_acpi s' =
       LivePtr (PrivacyAcpiPriv (Some pdev) (Some pdev)
                  (LedClassdev "dell-privacy::micmute" 1 true "audio-micmute"
                               (ledtrig_audio_get env))) ∧
     platform_drvdata s' = pdev :: platform_drvdata s ∧
     led_registered s' = (if r =? 0 then true else led_registered s) ∧
     wmi_driver_registered s' = wmi_driver_registered s ∧
     platform_drv_registered s' = platform_drv_registered s ∧
     platform_device_registered s' = platform_device_registered s)
  ∧ ((∀ a, privacy_acpi s ≠ LivePtr a) →
     dell_privacy_acpi_probe env pdev s = None).
Proof.
  assert (Hio : - EIO = 0 → False) by (unfold EIO; lia).
  destruct s as [w pa pdrv pdv dd led], env as [trig ret].
  unfold dell_privacy_acpi_probe, dell_privacy_leds_setup. split.
  - intros a Ha. simpl in Ha. subst pa. run_ms.
    rewrite bool_decide_eq_true_2 by (apply elem_of_cons; by left).
    destruct (Z.eqb_spec ret 0) as [-> |Hret]; run_ms.
    + eexists _, _. split; [reflexivity|]. simpl. repeat split; auto.
    + destruct (Z.eqb_spec ret 0); [done|]. run_ms.
      eexists _, _. split; [reflexivity|]. simpl.
      repeat split; auto; try done; try (intros Hx; exfalso; by apply Hio).
  - intros Hdead. simpl in Hdead. run_ms.
    destruct pa as [|a|]; try reflexivity. by destruct (Hdead a).
Qed.

Lemma dell_privacy_acpi_probe_outcomes_witness :
  ∃ r s',
    dell_privacy_acpi_probe (LedEnv 1 (- EINVAL)) 4
      (ModuleState true (LivePtr zeroed_privacy_acpi) true (Some 4%nat) [] false)
    = Some (r, s') ∧ r = - EIO ∧ led_registered s' = false.
Proof.
  destruct (dell_privacy_acpi_probe_outcomes (LedEnv 1 (- EINVAL)) 4
              (ModuleState true (LivePtr zeroed_privacy_acpi) true (Some 4%nat) [] false))
    as [Hlive _].
  destruct (Hlive zeroed_privacy_acpi eq_refl) as (r & s' & Hrun & _).
  exists r, s'. split; [exact Hrun|].
  vm_compute in Hrun. injection Hrun as <- <-. done.
Defined.

(** X17.  A module load in which every step succeeds, followed by the probe
    of the platform device it created (whether or not the LED registers) and
    by the module unload, leaves no driver and no device registered and
    [privacy_acpi] freed: [exit_dell_privacy] undoes every registration made
    by [init_dell_privacy]. *)
Theorem module_load_unload env lenv pdev :
  init_has_guid env = true →
  init_succeeds env = true →
  platform_device_register_simple env = PdevOk pdev →
  ∃ s',
    (init_dell_privacy env;; dell_privacy_acpi_probe lenv pdev;; exit_dell_privacy)
      module_load = Some (tt, s') ∧
    wmi_driver_registered s' = false ∧
    platform_drv_registered s' = false ∧
    platform_device_registered s' = None ∧
    privacy_acpi s' = FreedPtr.
Proof.
  destruct env as [g r1 k r2 pd], lenv as [trig ret].
  unfold init_succeeds, acpi_init_succeeds.
  cbn [init_has_guid wmi_driver_register_ret init_kzalloc_ok
       platform_driver_register_ret platform_device_register_simple].
  intros -> H ->. split_andb. subst k.
  match goal with H : (r1 =? 0) = true |- _ => apply Z.eqb_eq in H; subst r1 end.
  match goal with H : (r2 =? 0) = true |- _ => apply Z.eqb_eq in H; subst r2 end.
  unfold init_dell_privacy, dell_privacy_acpi_init, dell_privacy_acpi_probe,
    dell_privacy_leds_setup, exit_dell_privacy, dell_privacy_wmi_exit,
    dell_privacy_acpi_exit, platform_device_unregister, module_load.
  run_ms. simpl.
  rewrite bool_decide_eq_true_2 by (apply elem_of_cons; by left).
  destruct (ret =? 0) eqn:E; run_ms; try change (0 =? 0) with true;
    rewrite ?E; run_ms; rewrite ?bool_decide_eq_true_2 by done;
    (eexists; split; [reflexivity|done]).
Qed.

Lemma module_load_unload_witness :
  ∃ s',
    (init_dell_privacy example_init_env;; dell_privacy_acpi_probe (LedEnv 0 0) 4;;
     exit_dell_privacy) module_load = Some (tt, s') ∧
    wmi_driver_registered s' = false ∧ privacy_acpi s' = FreedPtr.
Proof.
  destruct (module_load_unload example_init_env (LedEnv 0 0) 4 eq_refl eq_refl eq_refl)
    as (s' & Hrun & Hw & _ & _ & Hp).
  exists s'. done.
Defined.

(** ** Probes of other devices *)

(** X18.  In a reachable state, whatever happens during the probe of one
    device, the attributes of every other device that has its drvdata set
    show after the probe exactly what they showed before it. *)
Theorem probe_preserves_attributes s env wdev dev priv :
  reachable s →
  drvdata s !! dev = Some priv →
  dev ≠ wdev →
  ∃ r s' sup cur,
    dell_privacy_wmi_probe env wdev s = Some (r, s') ∧
    devices_supported_show dev s = Some (sup, s) ∧
    devices_supported_show dev s' = Some (sup, s') ∧
    current_state_show dev s = Some (cur, s) ∧
    current_state_show dev s' = Some (cur, s').
Proof.
  intros Hreach Hdrv Hne.
  pose proof (wf_drvdata s (reachable_driver_wf s Hreach) dev priv Hdrv) as Hlt.
  destruct (lookup_lt_is_Some_2 (objs s) priv Hlt) as [d Hd].
  rewrite probe_run.
  exists (probe_outcome env wdev s).1, (probe_outcome env wdev s).2,
    (sysfs_emit_x (features_present d)), (sysfs_emit_x (last_status d)).
  split; [by destruct (probe_outcome env wdev s)|].
  pose proof (probe_outcome_shape env wdev s) as Hs. simpl in Hs.
  unfold devices_supported_show, current_state_show, load, mbind, M_bind,
    dev_get_drvdata, mret, M_ret.
  rewrite Hdrv, Hd.
  destruct Hs as [->|[(valid & d0 & -> & _)|(valid & d0 & idev & -> & _)]].
  - by rewrite Hdrv, Hd.
  - simpl. rewrite lookup_insert_ne by done. rewrite Hdrv. simpl.
    rewrite lookup_snoc_lt by done. by rewrite Hd.
  - simpl. rewrite lookup_insert_ne by done. rewrite Hdrv. simpl.
    rewrite lookup_snoc_lt by done. by rewrite Hd.
Qed.

Lemma probe_preserves_attributes_witness :
  ∃ r s',
    dell_privacy_wmi_probe query_fails_env 9 example_probed = Some (r, s') ∧
    (fst <$> current_state_show 7 s') = Some (String "1" (String "010" EmptyString)).
Proof.
  destruct (probe_preserves_attributes example_probed query_fails_env 9 7 0
              example_probed_reachable eq_refl) as
    (r & s' & sup & cur & Hrun & _ & _ & Hcur & Hcur'); [lia|].
  exists r, s'. split; [exact Hrun|].
  rewrite Hcur'. vm_compute in Hcur. injection Hcur as <-. done.
Defined.
